(** * LECO LoRA training script ([train_lora.py]): a shallow embedding

  The script is an orchestration of external collaborators (model loading,
  text embedding, the diffusion sampler, the LoRA network, the optimizer).
  The embedding keeps the script's own control flow and data flow and takes
  the collaborators as an interface record:

  - Python values the script computes itself (the precision switch, the
    random coarse index, the [int(c * 1000 / DDIM_STEPS)] rescaling, the
    output file name) are executable Rocq functions;
  - the body of [train] is written in a small state/exception/log monad,
    one monadic statement per source statement;
  - local variables live in a frame (the set of bound names, a
    [gset string]) so that [del] of a name that was never bound raises, as in
    Python. *)

From Stdlib Require Import ZArith QArith Floats Uint63 List Ascii Lia.
From stdpp Require Import gmap strings.
Import ListNotations.
Open Scope Z_scope.

(** ** Python primitives used by the script *)

Module Py.

(** Exceptions the modelled statements can raise. *)
Inductive exn : Type :=
| UnboundLocalError (name : string)
| IndexError
| ZeroDivisionError
| OverflowError
| RuntimeError (msg : string).

(** [range(n)]: empty for [n <= 0]. *)
Definition range (n : Z) : list Z := map Z.of_nat (seq 0 (Z.to_nat n)).

(** [s.replace(old, new)] for a non-empty [old]: scan left to right, replace
    every non-overlapping occurrence.  [skip] counts the characters of an
    occurrence that was just replaced and must be dropped. *)
Fixpoint replace_go (old new : string) (skip : nat) (s : string) : string :=
  match s with
  | EmptyString => EmptyString
  | String c s' =>
      match skip with
      | S k => replace_go old new k s'
      | O =>
          if String.prefix old s
          then new +:+ replace_go old new (String.length old - 1) s'
          else String c (replace_go old new O s')
      end
  end.

(** With an empty [old], Python inserts [new] before every character and at
    the end. *)
Fixpoint intersperse (new : string) (s : string) : string :=
  match s with
  | EmptyString => new
  | String c s' => new +:+ String c (intersperse new s')
  end.

Definition str_replace (s old new : string) : string :=
  match old with
  | EmptyString => intersperse new s
  | _ => replace_go old new O s
  end.

(** Character-wise view of a single-character replacement. *)
Fixpoint map_char (f : ascii -> ascii) (s : string) : string :=
  match s with
  | EmptyString => EmptyString
  | String c s' => String (f c) (map_char f s')
  end.

(** [a / b] on two ints: binary64 true division.  Both operands are converted
    exactly when they are below 2^53, which is the range modelled here;
    outside of it the model reports [OverflowError]. *)
Definition float_of_int (z : Z) : float := PrimFloat.of_uint63 (Uint63.of_Z z).

Definition exact_range (z : Z) : bool := (0 <=? z) && (z <? 2 ^ 53).

Definition truediv (a b : Z) : exn + float :=
  if b =? 0 then inl ZeroDivisionError
  else if exact_range a && exact_range b
       then inr (PrimFloat.div (float_of_int a) (float_of_int b))
       else inl OverflowError.

(** [int(x)] on a float: truncation toward zero; infinities and NaN raise. *)
Definition int_of_float (x : float) : exn + Z :=
  match Prim2SF x with
  | S754_zero _ => inr 0
  | S754_finite sgn m e =>
      let mag := if 0 <=? e then Z.shiftl (Z.pos m) e
                 else Z.shiftr (Z.pos m) (- e) in
      inr (if sgn then - mag else mag)
  | S754_infinity _ => inl OverflowError
  | S754_nan => inl (RuntimeError "cannot convert float NaN to integer")
  end.

(** [round(x)] on a float: nearest integer, ties to the even one. *)
Definition round_float (x : float) : exn + Z :=
  match Prim2SF x with
  | S754_zero _ => inr 0
  | S754_finite sgn m e =>
      let mag :=
        if 0 <=? e then Z.shiftl (Z.pos m) e
        else
          let q := Z.shiftr (Z.pos m) (- e) in
          let r := Z.pos m - Z.shiftl q (- e) in
          let half := Z.shiftl 1 (- e - 1) in
          if r <? half then q
          else if half <? r then q + 1
          else if Z.even q then q else q + 1 in
      inr (if sgn then - mag else mag)
  | S754_infinity _ => inl OverflowError
  | S754_nan => inl (RuntimeError "cannot convert float NaN to integer")
  end.

(** [l[i]] with Python's negative indices. *)
Definition index {A : Type} (l : list A) (i : Z) : exn + A :=
  let n := Z.of_nat (length l) in
  let j := if i <? 0 then i + n else i in
  if (0 <=? j) && (j <? n)
  then match nth_error l (Z.to_nat j) with
       | Some a => inr a
       | None => inl IndexError
       end
  else inl IndexError.

End Py.

(** ** torch primitives with a value the script depends on *)

Module Torch.

(** [torch.float32], [torch.float16], [torch.bfloat16]. *)
Inductive dtype : Type := float32 | float16 | bfloat16.

(** [torch.randint(low, high, (1,)).item()]: an integer of the half-open
    range [low, high).  [raw] is the generator's next raw output; the draw
    reduces it onto the range. *)
Definition randint (low high : Z) (raw : Z) : Z := low + raw mod (high - low).




End Torch.

(** ** Module-level constants of the script *)

Definition DEVICE_CUDA : string := "cuda".
Definition DDIM_STEPS : Z := 50.

(** Lines 69-73: the precision switch. *)
Definition weight_dtype_of (precision : string) : Torch.dtype :=
if String.eqb precision "float16" then Torch.float16
else if String.eqb precision "bfloat16" then Torch.bfloat16
else Torch.float32.

(** Line 127: [torch.randint(1, DDIM_STEPS - 1, (1,)).item()]. *)
Definition draw_timesteps_to (raw : Z) : Z := Torch.randint 1 (DDIM_STEPS - 1) raw.

(** Line 148: [int(timesteps_to * 1000 / DDIM_STEPS)]. *)
Definition fine_index (timesteps_to : Z) : Py.exn + Z :=
match Py.truediv (timesteps_to * 1000) DDIM_STEPS with
| inl e => inl e
| inr x => Py.int_of_float x
end.

(** The same quotient through [round] instead of [int]. *)
Definition fine_index_rounded (timesteps_to : Z) : Py.exn + Z :=
match Py.truediv (timesteps_to * 1000) DDIM_STEPS with
| inl e => inl e
| inr x => Py.round_float x
end.

(** Lines 203-206: the name of the weight file. *)
Definition concept_name (prompt : string) : string := Py.str_replace prompt " " "_".

Definition weight_file_name (prompt : string) : string :=
concept_name prompt +:+ "_last.safetensors".


(** ** The adapter activation state (spec section 4.3) *)

Inductive adapter_state : Type := DISABLED | ENABLED.

(** Call sites of [train_util.predict_noise], named by the local they bind. *)
Inductive predict_site : Type := site_positive | site_neutral | site_negative.

Definition site_name (k : predict_site) : string :=
match k with
| site_positive => "positive_latents"
| site_neutral => "neutral_latents"
| site_negative => "negative_latents"
end.

Section Script.

(** Opaque data of the collaborators: tensors, Python floats, the loaded
    models, the LoRA parameters, the AdamW state, accumulated gradients, the
    torch generator and [pathlib.Path]. *)
Context {Tensor Scalar Models Params Optimizer Grads Rng Path : Type}.

(** The narrow interfaces through which the script uses its collaborators
    (spec section 6).  Sampler calls see the adapter state, the gradient
    mode, the adapter parameters and the scheduler's current step count, and
    may raise. *)
Record collaborators : Type := {
  (* model_util.load_models(pretrained_model, scheduler_name, v2, v_pred) *)
  load_models : string -> string -> bool -> bool -> Models;
  (* LoRANetwork(unet, rank=rank, multiplier=1.0, alpha=1).to(device, dtype) *)
  new_network : Models -> Z -> Torch.dtype -> Params;
  (* the activation state the constructor leaves the network in *)
  initial_adapter : adapter_state;
  (* train_util.get_text_embeddings(tokenizer, text_encoder, prompts, n_imgs) *)
  get_text_embeddings : Models -> Torch.dtype -> list string -> Z -> Tensor;
  (* train_util.get_initial_latents(scheduler, n_imgs, img_size, n_prompts).to(device, dtype) *)
  get_initial_latents : Models -> option Z -> Rng -> Z -> Z -> Z -> Torch.dtype -> Tensor * Rng;
  (* train_util.diffusion(unet, scheduler, latents, emb, start, total, guidance_scale) *)
  diffusion : Models -> adapter_state -> bool -> Params -> option Z ->
              Tensor -> Tensor -> Z -> Z -> Z -> Py.exn + Tensor;
  (* train_util.predict_noise(unet, scheduler, timestep, latents, emb, guidance_scale) *)
  predict_noise : Models -> adapter_state -> bool -> Params -> option Z ->
                  Z -> Tensor -> Tensor -> Z -> Py.exn + Tensor;
  (* scheduler.timesteps after scheduler.set_timesteps(n) *)
  scheduler_timesteps : Models -> option Z -> list Z;
  (* raw output of the global torch generator *)
  rng_next : Rng -> Z * Rng;
  (* tensor.to("cpu", dtype=torch.float32) *)
  to_cpu_float32 : Tensor -> Tensor;
  (* a - b and x * a on tensors *)
  tensor_sub : Tensor -> Tensor -> Tensor;
  scalar_mul : Scalar -> Tensor -> Tensor;
  (* torch.nn.MSELoss()(input, target) *)
  MSELoss : Tensor -> Tensor -> Tensor;
  (* torch.optim.AdamW(network.prepare_optimizer_params(), lr=lr) *)
  new_optimizer : Params -> Scalar -> Optimizer;
  (* loss.backward(): gradients accumulated onto the existing ones *)
  backward : Params -> option Grads -> Tensor -> Grads;
  (* optimizer.step() *)
  optimizer_step : Optimizer -> Params -> option Grads -> Optimizer * Params;
  (* save_path / name and str(save_path) *)
  path_join : Path -> string -> Path;
  path_str : Path -> string;
}.

Variable C : collaborators.

(** The arguments of [train], lines 33-49. *)
Record train_args : Type := {
  prompt : string;
  pretrained_model : string;
  modules : list string;
  iterations : Z;
  neutral_prompt : string;
  rank : Z;
  alpha : Scalar;
  negative_guidance : Scalar;
  lr : Scalar;
  save_path : Path;
  v2 : bool;
  v_pred : bool;
  precision : string;
  scheduler_name : string;
  enable_wandb : bool;
}.

(** Values handed to the experiment tracker. *)
Inductive value : Type :=
| VTensor (t : Tensor)
| VInt (z : Z)
| VBool (b : bool)
| VStr (s : string)
| VStrList (l : list string)
| VScalar (x : Scalar)
| VDtype (d : Torch.dtype)
| VPath (p : Path)
| VRef (object : string).

(** Effects on the collaborators and the outside world, in program order. *)
Inductive event : Type :=
| EvWandbInit (project : string)
| EvWandbConfig (config : list (string * value))
| EvWandbLog (key : string) (v : value)
| EvLoadModels (pretrained scheduler_name : string) (v2 v_pred : bool)
| EvTo (object device : string) (d : Torch.dtype)
| EvEval (object : string)
| EvNewNetwork (rank : Z) (d : Torch.dtype)
| EvNewOptimizer (lr : Scalar)
| EvGetTextEmbeddings (grad : bool) (prompts : list string) (n_imgs : Z)
| EvDel (name : string)
| EvEmptyCache
| EvPrint (text : string)
| EvCheckRequiresGrad
| EvCheckTrainingMode
| EvPbarNext (i : Z)
| EvSetTimesteps (n : Z)
| EvZeroGrad
| EvRandint (low high drawn : Z)
| EvInitialLatents (n_imgs img_size n_prompts : Z)
| EvEnterScope
| EvExitScope
| EvDiffusion (ad : adapter_state) (grad : bool) (start total guidance : Z)
| EvTimestepIndex (idx : Z)
| EvPredictNoise (site : predict_site) (ad : adapter_state) (grad : bool)
                 (emb : Tensor) (guidance : Z) (result : Py.exn + Tensor)
| EvCriteria (input target loss : Tensor)
| EvSetRequiresGrad (name : string) (b : bool)
| EvSetDescription (loss : Tensor)
| EvBackward (loss : Tensor)
| EvOptimizerStep (before after : Params)
| EvMkdir (p : Path) (parents exist_ok : bool)
| EvSaveWeights (p : Path) (d : Torch.dtype) (weights : Params).

(** The mutable state the script's statements act on.  The fields for
    objects the script creates ([params], [optim]) are overwritten when the
    object is constructed. *)
Record state : Type := {
  adapter : adapter_state;        (* activation state of [network] *)
  grad_enabled : bool;            (* torch.is_grad_enabled() *)
  scheduler : option Z;           (* step count of the last set_timesteps *)
  rng : Rng;                      (* global torch generator *)
  params : Params;                (* parameters of [network] *)
  optim : Optimizer;              (* AdamW state *)
  grads : option Grads;           (* .grad of the parameters *)
  frame : gset string;            (* names bound in the frame of [train] *)
}.

Definition set_adapter (x : adapter_state) (s : state) : state :=
  {| adapter := x; grad_enabled := grad_enabled s; scheduler := scheduler s;
     rng := rng s; params := params s; optim := optim s; grads := grads s;
     frame := frame s |}.
Definition set_grad_enabled (x : bool) (s : state) : state :=
  {| adapter := adapter s; grad_enabled := x; scheduler := scheduler s;
     rng := rng s; params := params s; optim := optim s; grads := grads s;
     frame := frame s |}.
Definition set_scheduler (x : option Z) (s : state) : state :=
  {| adapter := adapter s; grad_enabled := grad_enabled s; scheduler := x;
     rng := rng s; params := params s; optim := optim s; grads := grads s;
     frame := frame s |}.
Definition set_rng (x : Rng) (s : state) : state :=
  {| adapter := adapter s; grad_enabled := grad_enabled s; scheduler := scheduler s;
     rng := x; params := params s; optim := optim s; grads := grads s;
     frame := frame s |}.
Definition set_params (x : Params) (s : state) : state :=
  {| adapter := adapter s; grad_enabled := grad_enabled s; scheduler := scheduler s;
     rng := rng s; params := x; optim := optim s; grads := grads s;
     frame := frame s |}.
Definition set_optim (x : Optimizer) (s : state) : state :=
  {| adapter := adapter s; grad_enabled := grad_enabled s; scheduler := scheduler s;
     rng := rng s; params := params s; optim := x; grads := grads s;
     frame := frame s |}.
Definition set_grads (x : option Grads) (s : state) : state :=
  {| adapter := adapter s; grad_enabled := grad_enabled s; scheduler := scheduler s;
     rng := rng s; params := params s; optim := optim s; grads := x;
     frame := frame s |}.
Definition set_frame (x : gset string) (s : state) : state :=
  {| adapter := adapter s; grad_enabled := grad_enabled s; scheduler := scheduler s;
     rng := rng s; params := params s; optim := optim s; grads := grads s;
     frame := x |}.

(** *** The monad: state, exceptions, and a log of events *)

Inductive outcome (A : Type) : Type :=
| Ok (a : A)
| Raise (e : Py.exn).
Arguments Ok {A} a.
Arguments Raise {A} e.

Record res (A : Type) : Type := Res {
  out : outcome A;
  st : state;
  log : list event;
}.
Arguments Res {A} out st log.
Arguments out {A} r.
Arguments st {A} r.
Arguments log {A} r.

Definition M (A : Type) : Type := state -> res A.

Definition ret {A : Type} (a : A) : M A := fun s => Res (Ok a) s [].

Definition bind {A B : Type} (m : M A) (k : A -> M B) : M B := fun s =>
  let r := m s in
  match out r with
  | Ok a => let r' := k a (st r) in Res (out r') (st r') (log r ++ log r')
  | Raise e => Res (Raise e) (st r) (log r)
  end.

Definition raise {A : Type} (e : Py.exn) : M A := fun s => Res (Raise e) s [].
Definition emit (ev : event) : M unit := fun s => Res (Ok tt) s [ev].
Definition gets {A : Type} (f : state -> A) : M A := fun s => Res (Ok (f s)) s [].
Definition modify (f : state -> state) : M unit := fun s => Res (Ok tt) (f s) [].
Definition lift {A : Type} (x : Py.exn + A) : M A :=
  match x with
  | inl e => raise e
  | inr a => ret a
  end.
Definition when (b : bool) (m : M unit) : M unit := if b then m else ret tt.

Notation "x <- m ;; k" := (bind m (fun x => k))
  (at level 100, m at next level, right associativity).
Notation "m ;; k" := (bind m (fun _ => k))
  (at level 100, right associativity).

(** *** Local variables *)

(** [name = ...]: the name is bound from now on. *)
Definition assign (name : string) : M unit :=
  modify (fun s => set_frame ({[name]} ∪ frame s) s).

(** [del name]: unbinding a name that is not bound raises. *)
Definition del (name : string) : M unit := fun s =>
  if bool_decide (name ∈ frame s)
  then Res (Ok tt) (set_frame (frame s ∖ {[name]}) s) [EvDel name]
  else Res (Raise (Py.UnboundLocalError name)) s [].

(** [del (a, b, ...)]: the targets are deleted from left to right. *)
Fixpoint del_all (names : list string) : M unit :=
  match names with
  | [] => ret tt
  | n :: rest => del n ;; del_all rest
  end.

(** The frame at entry: the parameters are bound to the arguments. *)
Definition args_frame : gset string :=
  list_to_set
    [ "prompt"; "pretrained_model"; "modules"; "iterations"; "neutral_prompt";
      "rank"; "alpha"; "negative_guidance"; "lr"; "save_path"; "v2"; "v_pred";
      "precision"; "scheduler_name"; "enable_wandb" ].

(** Lines 52-67: the dictionary assigned to [wandb.config]. *)
Definition wandb_config (a : train_args) : list (string * value) :=
  [ ("prompt", VStr (prompt a));
    ("neutral_prompt", VStr (neutral_prompt a));
    ("pretrained_model", VStr (pretrained_model a));
    ("modules", VStrList (modules a));
    ("iterations", VInt (iterations a));
    ("rank", VInt (rank a));
    ("alpha", VScalar (alpha a));
    ("negative_guidance", VScalar (negative_guidance a));
    ("lr", VScalar (lr a));
    ("v2", VBool (v2 a));
    ("v_pred", VBool (v_pred a));
    ("precision", VStr (precision a));
    ("scheduler_name", VStr (scheduler_name a));
    ("save_path", VStr (path_str C (save_path a))) ].

(** *** Scopes *)

(** [with torch.no_grad():] gradient mode off inside, restored on every
    exit. *)
Definition no_grad {A : Type} (body : M A) : M A := fun s =>
  let previous := grad_enabled s in
  let r := body (set_grad_enabled false s) in
  Res (out r) (set_grad_enabled previous (st r)) (log r).

(** Modelled from the spec: [LoRANetwork.__enter__] lives in lora.py, which
    is not part of the sources at hand.  Spec section 4.3: entering the scoped
    activation begins the ENABLED state. *)
Definition enter_enabled_scope : M unit := fun s =>
  Res (Ok tt) (set_adapter ENABLED s) [EvEnterScope].

(** Modelled from the spec: [LoRANetwork.__exit__] lives in lora.py, which
    is not part of the sources at hand.  Spec section 4.3: leaving the scope
    returns the adapter to DISABLED; the exception, if any, propagates. *)
Definition exit_enabled_scope : M unit := fun s =>
  Res (Ok tt) (set_adapter DISABLED s) [EvExitScope].

(** [with network:] Python runs [__exit__] when the body returns and when it
    raises. *)
Definition with_network {A : Type} (body : M A) : M A := fun s =>
  let r0 := enter_enabled_scope s in
  let r1 := body (st r0) in
  let r2 := exit_enabled_scope (st r1) in
  Res (out r1) (st r2) (log r0 ++ log r1 ++ log r2).

(** *** Collaborator calls as statements *)

Definition set_timesteps (n : Z) : M unit :=
  modify (set_scheduler (Some n)) ;; emit (EvSetTimesteps n).

Definition zero_grad : M unit :=
  modify (set_grads None) ;; emit EvZeroGrad.

Definition call_randint (low high : Z) : M Z := fun s =>
  let (raw, g) := rng_next C (rng s) in
  let drawn := Torch.randint low high raw in
  Res (Ok drawn) (set_rng g s) [EvRandint low high drawn].

Definition call_get_text_embeddings (m : Models) (d : Torch.dtype)
    (prompts : list string) (n_imgs : Z) : M Tensor := fun s =>
  Res (Ok (get_text_embeddings C m d prompts n_imgs)) s
      [EvGetTextEmbeddings (grad_enabled s) prompts n_imgs].

Definition call_get_initial_latents (m : Models) (n_imgs img_size n_prompts : Z)
    (d : Torch.dtype) : M Tensor := fun s =>
  let (t, g) := get_initial_latents C m (scheduler s) (rng s) n_imgs img_size n_prompts d in
  Res (Ok t) (set_rng g s) [EvInitialLatents n_imgs img_size n_prompts].

Definition call_diffusion (m : Models) (latents emb : Tensor)
    (start_timesteps total_timesteps guidance_scale : Z) : M Tensor := fun s =>
  let r := diffusion C m (adapter s) (grad_enabled s) (params s) (scheduler s)
             latents emb start_timesteps total_timesteps guidance_scale in
  Res (match r with inl e => Raise e | inr t => Ok t end) s
      [EvDiffusion (adapter s) (grad_enabled s)
         start_timesteps total_timesteps guidance_scale].

(** [train_util.predict_noise(...).to("cpu", dtype=torch.float32)]. *)
Definition call_predict_noise (site : predict_site) (m : Models) (timestep : Z)
    (latents emb : Tensor) (guidance_scale : Z) : M Tensor := fun s =>
  let r := predict_noise C m (adapter s) (grad_enabled s) (params s) (scheduler s)
             timestep latents emb guidance_scale in
  let r' := match r with inl e => inl e | inr t => inr (to_cpu_float32 C t) end in
  Res (match r' with inl e => Raise e | inr t => Ok t end) s
      [EvPredictNoise site (adapter s) (grad_enabled s) emb guidance_scale r'].

(** [loss.backward()].  [recorded] is [loss.requires_grad]: autograd has
    recorded the loss when gradient mode was on while it was computed.  A loss
    that was not recorded has no [grad_fn], and [backward] raises. *)
Definition call_backward (recorded : bool) (loss : Tensor) : M unit := fun s =>
  if recorded
  then Res (Ok tt) (set_grads (Some (backward C (params s) (grads s) loss)) s)
           [EvBackward loss]
  else Res (Raise (Py.RuntimeError
                     "element 0 of tensors does not require grad and does not have a grad_fn"))
           s [].

Definition call_optimizer_step : M unit := fun s =>
  let (o, p) := optimizer_step C (optim s) (params s) (grads s) in
  Res (Ok tt) (set_params p (set_optim o s)) [EvOptimizerStep (params s) p].

(** *** The script *)

(** Lines 20-25 and 28-30: debugging output about the first modules of the
    network. *)
Definition check_requires_grad : M unit := emit EvCheckRequiresGrad.
Definition check_training_mode : M unit := emit EvCheckTrainingMode.

(** [for i in pbar:] over [tqdm(range(iterations))]. *)
Fixpoint for_each (l : list Z) (body : Z -> M unit) : M unit :=
  match l with
  | [] => ret tt
  | i :: rest => body i ;; for_each rest body
  end.

(** Lines 117-197: the body of the training loop. *)
Definition train_step (a : train_args) (m : Models) (weight_dtype : Torch.dtype)
    (neutral_text_embeddings positive_text_embeddings : Tensor) (i : Z) : M unit :=
  emit (EvPbarNext i) ;;
  assign "i" ;;
  when (enable_wandb a) (emit (EvWandbLog "iteration" (VInt i))) ;;
  prepared <- no_grad (
    set_timesteps DDIM_STEPS ;;
    zero_grad ;;
    timesteps_to <- call_randint 1 (DDIM_STEPS - 1) ;;
    assign "timesteps_to" ;;
    latents <- call_get_initial_latents m 1 512 1 weight_dtype ;;
    assign "latents" ;;
    denoised_latents <- with_network (
      d <- call_diffusion m latents positive_text_embeddings 0 timesteps_to 3 ;;
      assign "denoised_latents" ;;
      ret d) ;;
    set_timesteps 1000 ;;
    idx <- lift (fine_index timesteps_to) ;;
    emit (EvTimestepIndex idx) ;;
    steps <- gets scheduler ;;
    current_timestep <- lift (Py.index (scheduler_timesteps C m steps) idx) ;;
    assign "current_timestep" ;;
    positive_latents <- call_predict_noise site_positive m current_timestep
                          denoised_latents positive_text_embeddings 1 ;;
    assign "positive_latents" ;;
    emit (EvPrint "positive_latents") ;;
    neutral_latents <- call_predict_noise site_neutral m current_timestep
                         denoised_latents neutral_text_embeddings 1 ;;
    assign "neutral_latents" ;;
    emit (EvPrint "neutral_latents") ;;
    ret (current_timestep, denoised_latents, positive_latents, neutral_latents)) ;;
  let '(current_timestep, denoised_latents, positive_latents, neutral_latents) := prepared in
  negative_latents <- with_network (
    n <- call_predict_noise site_negative m current_timestep
           denoised_latents positive_text_embeddings 1 ;;
    assign "negative_latents" ;;
    emit (EvPrint "negative_latents") ;;
    ret n) ;;
  emit (EvSetRequiresGrad "positive_latents" false) ;;
  emit (EvSetRequiresGrad "neutral_latents" false) ;;
  let target :=
    tensor_sub C neutral_latents
      (scalar_mul C (negative_guidance a)
         (tensor_sub C positive_latents neutral_latents)) in
  let loss := MSELoss C negative_latents target in
  emit (EvCriteria negative_latents target loss) ;;
  (* loss.requires_grad: the gradient mode in which lines 171-190 computed
     the adapter-enabled prediction and, from it, the loss *)
  recorded <- gets grad_enabled ;;
  assign "loss" ;;
  emit (EvSetDescription loss) ;;
  when (enable_wandb a) (emit (EvWandbLog "loss" (VTensor loss))) ;;
  call_backward recorded loss ;;
  call_optimizer_step.

(** Lines 199-223: saving and cleanup. *)
Definition save_and_cleanup (a : train_args) (weight_dtype : Torch.dtype) : M unit :=
  emit (EvPrint "Saving...") ;;
  emit (EvMkdir (save_path a) true true) ;;
  assign "concept_name" ;;
  weights <- gets params ;;
  emit (EvSaveWeights (path_join C (save_path a) (weight_file_name (prompt a)))
          weight_dtype weights) ;;
  del_all [ "unet"; "scheduler"; "loss"; "optimizer"; "network";
            "negative_latents"; "neutral_latents"; "positive_latents"; "latents" ] ;;
  emit EvEmptyCache ;;
  emit (EvPrint "Done.").

(** Lines 95-107: the two conditioning embeddings. *)
Definition embeddings (a : train_args) (m : Models) (weight_dtype : Torch.dtype)
    : M (Tensor * Tensor) :=
  no_grad (
    neutral_text_embeddings <- call_get_text_embeddings m weight_dtype [""] 1 ;;
    assign "neutral_text_embeddings" ;;
    positive_text_embeddings <- call_get_text_embeddings m weight_dtype [prompt a] 1 ;;
    assign "positive_text_embeddings" ;;
    ret (neutral_text_embeddings, positive_text_embeddings)).

(** Lines 117-197 as a whole. *)
Definition training_loop (a : train_args) (m : Models) (weight_dtype : Torch.dtype)
    (neutral_text_embeddings positive_text_embeddings : Tensor) : M unit :=
  for_each (Py.range (iterations a))
    (train_step a m weight_dtype neutral_text_embeddings positive_text_embeddings).

(** Lines 69-223: everything after the experiment-tracker prologue. *)
Definition train_main (a : train_args) : M unit :=
  let weight_dtype := weight_dtype_of (precision a) in
  assign "weight_dtype" ;;
  let m := load_models C (pretrained_model a) (scheduler_name a) (v2 a) (v_pred a) in
  emit (EvLoadModels (pretrained_model a) (scheduler_name a) (v2 a) (v_pred a)) ;;
  assign "tokenizer" ;;
  assign "text_encoder" ;;
  assign "unet" ;;
  assign "scheduler" ;;
  emit (EvTo "text_encoder" DEVICE_CUDA weight_dtype) ;;
  emit (EvEval "text_encoder") ;;
  emit (EvTo "unet" DEVICE_CUDA weight_dtype) ;;
  emit (EvEval "unet") ;;
  modify (fun s => set_adapter (initial_adapter C)
                     (set_params (new_network C m (rank a) weight_dtype) s)) ;;
  emit (EvNewNetwork (rank a) weight_dtype) ;;
  assign "network" ;;
  trainable <- gets params ;;
  modify (set_optim (new_optimizer C trainable (lr a))) ;;
  emit (EvNewOptimizer (lr a)) ;;
  assign "optimizer" ;;
  assign "criteria" ;;
  assign "pbar" ;;
  embs <- embeddings a m weight_dtype ;;
  let '(neutral_text_embeddings, positive_text_embeddings) := embs in
  del "tokenizer" ;;
  del "text_encoder" ;;
  emit EvEmptyCache ;;
  emit (EvPrint "grads: network") ;;
  check_requires_grad ;;
  emit (EvPrint "training mode: network") ;;
  check_training_mode ;;
  training_loop a m weight_dtype neutral_text_embeddings positive_text_embeddings ;;
  save_and_cleanup a weight_dtype.

(** Lines 33-223: [train]. *)
Definition train (a : train_args) : M unit :=
  modify (set_frame args_frame) ;;
  when (enable_wandb a)
    (emit (EvWandbInit "LECO") ;; emit (EvWandbConfig (wandb_config a))) ;;
  train_main a.

(** ** Vocabulary for statements about runs *)

(** [wp m K s]: the run of [m] from [s] ends in an outcome, a state and a log
    that satisfy [K]. *)
Definition wp {A : Type} (m : M A)
    (K : outcome A -> state -> list event -> Prop) (s : state) : Prop :=
  K (out (m s)) (st (m s)) (log (m s)).

(** A monitor reads a log from left to right, keeps a register, and says at
    each event whether the event is allowed. *)
Record monitor (R : Type) : Type := Monitor {
  next : R -> event -> R;
  allowed : R -> event -> Prop;
}.
Arguments next {R} m r e.
Arguments allowed {R} m r e.

Fixpoint accepts {R : Type} (mon : monitor R) (r : R) (tr : list event) : Prop :=
  match tr with
  | [] => True
  | e :: tr' => allowed mon r e /\ accepts mon (next mon r e) tr'
  end.

Definition after {R : Type} (mon : monitor R) (r : R) (tr : list event) : R :=
  fold_left (next mon) tr r.

(** The monitor without a register that asks [P] of every event. *)
Definition each (P : event -> Prop) : monitor unit :=
  {| next r _ := r; allowed _ e := P e |}.

(** [m] only produces logs the monitor accepts, from every state and every
    register. *)
Definition always {A R : Type} (mon : monitor R) (m : M A) : Prop :=
  forall s, wp m (fun _ _ l => forall r, accepts mon r l) s.

(** The embeddings a run of [train] conditions on. *)
Definition loaded_models (a : train_args) : Models :=
  load_models C (pretrained_model a) (scheduler_name a) (v2 a) (v_pred a).

Definition target_embedding (a : train_args) : Tensor :=
  get_text_embeddings C (loaded_models a) (weight_dtype_of (precision a)) [prompt a] 1.

Definition neutral_embedding (a : train_args) : Tensor :=
  get_text_embeddings C (loaded_models a) (weight_dtype_of (precision a)) [""] 1.

(** What the constructor of the network returns for a run. *)
Definition initial_params (a : train_args) : Params :=
  new_network C (loaded_models a) (rank a) (weight_dtype_of (precision a)).

(** The guidance target of line 188-189. *)
Definition guidance_target (g : Scalar) (target_off neutral : Tensor) : Tensor :=
  tensor_sub C neutral (scalar_mul C g (tensor_sub C target_off neutral)).

(** *** Loss monitor (claim C1) *)

(** The predictions of the current iteration, kept only when they were made
    in the adapter state the algorithm asks for. *)
Record predictions : Type := {
  target_off : option Tensor;
  neutral_off : option Tensor;
  adapter_on : option Tensor;
}.

Definition no_predictions : predictions :=
  {| target_off := None; neutral_off := None; adapter_on := None |}.

Definition made_in (wanted ad : adapter_state) (r : Py.exn + Tensor) : option Tensor :=
  match wanted, ad, r with
  | DISABLED, DISABLED, inr t => Some t
  | ENABLED, ENABLED, inr t => Some t
  | _, _, _ => None
  end.

Definition record_prediction (site : predict_site) (ad : adapter_state)
    (r : Py.exn + Tensor) (p : predictions) : predictions :=
  match site with
  | site_positive =>
      {| target_off := made_in DISABLED ad r; neutral_off := neutral_off p;
         adapter_on := adapter_on p |}
  | site_neutral =>
      {| target_off := target_off p; neutral_off := made_in DISABLED ad r;
         adapter_on := adapter_on p |}
  | site_negative =>
      {| target_off := target_off p; neutral_off := neutral_off p;
         adapter_on := made_in ENABLED ad r |}
  end.

(** Every call of the criterion gets the adapter-enabled prediction of the
    iteration as input and the guidance target built from the two
    adapter-disabled predictions of the iteration as target, and yields their
    [MSELoss]; the loss that is back-propagated is the one last computed. *)
Definition loss_monitor (g : Scalar) : monitor (predictions * option Tensor) := {|
  next r e :=
    match e with
    | EvPbarNext _ => (no_predictions, None)
    | EvPredictNoise site ad _ _ _ res => (record_prediction site ad res (fst r), snd r)
    | EvCriteria _ _ loss => (fst r, Some loss)
    | _ => r
    end;
  allowed r e :=
    match e with
    | EvCriteria input target loss =>
        exists p n q,
          target_off (fst r) = Some p /\ neutral_off (fst r) = Some n /\
          adapter_on (fst r) = Some q /\
          input = q /\ target = guidance_target g p n /\
          loss = MSELoss C input target
    | EvBackward loss => snd r = Some loss
    | _ => True
    end;
|}.

(** *** Adapter activation (claim C3) *)

(** The adapter state each sampler call must see, and the embedding it is
    conditioned on. *)
Definition scoped_ok (neutral target : Tensor) (e : event) : Prop :=
  match e with
  | EvDiffusion ad _ _ _ _ => ad = ENABLED
  | EvPredictNoise site_positive ad _ emb _ _ => ad = DISABLED /\ emb = target
  | EvPredictNoise site_neutral ad _ emb _ _ => ad = DISABLED /\ emb = neutral
  | EvPredictNoise site_negative ad _ emb _ _ => ad = ENABLED /\ emb = target
  | _ => True
  end.

(** *** Timesteps (claims C4 and C5) *)

(** The coarse index is drawn from [1, DDIM_STEPS - 2]. *)
Definition draw_ok (e : event) : Prop :=
  match e with
  | EvRandint low high drawn =>
      low = 1 /\ high = DDIM_STEPS - 1 /\ 1 <= drawn <= DDIM_STEPS - 2
  | EvDiffusion _ _ start total _ => start = 0 /\ 1 <= total <= DDIM_STEPS - 2
  | _ => True
  end.


(** The fine index is computed from the coarse index drawn last, on the
    1000-step schedule. *)
Definition index_monitor : monitor (option Z * option Z) := {|
  next r e :=
    match e with
    | EvPbarNext _ => (None, None)
    | EvRandint _ _ drawn => (Some drawn, snd r)
    | EvSetTimesteps n => (fst r, Some n)
    | _ => r
    end;
  allowed r e :=
    match e with
    | EvTimestepIndex idx =>
        exists c, fst r = Some c /\ snd r = Some 1000 /\
                  fine_index_rounded c = inr idx /\ 0 <= idx < 1000
    | _ => True
    end;
|}.

(** *** Classification of events *)

(** Events of the setup phase that compute an embedding. *)
Definition embedding_request (e : event) : list (bool * list string * Z) :=
  match e with
  | EvGetTextEmbeddings grad prompts n => [(grad, prompts, n)]
  | _ => []
  end.

Definition embedding_requests (tr : list event) : list (bool * list string * Z) :=
  flat_map embedding_request tr.

(** Events that create persistent state on the file system. *)
Definition is_file_event (e : event) : bool :=
  match e with
  | EvMkdir _ _ _ | EvSaveWeights _ _ _ => true
  | _ => false
  end.

Definition file_events (tr : list event) : list event := List.filter is_file_event tr.

(** Events that only the loop body emits: sampler calls, the random draw, the
    loss and the optimizer. *)
Definition is_training_event (e : event) : bool :=
  match e with
  | EvPbarNext _ | EvSetTimesteps _ | EvZeroGrad | EvRandint _ _ _
  | EvInitialLatents _ _ _ | EvEnterScope | EvExitScope | EvDiffusion _ _ _ _ _
  | EvTimestepIndex _ | EvPredictNoise _ _ _ _ _ _ | EvCriteria _ _ _
  | EvSetRequiresGrad _ _ | EvSetDescription _ | EvBackward _
  | EvOptimizerStep _ _ => true
  | _ => false
  end.

(** A monitor that has nothing to say about the setup and saving phases. *)
Definition ignores_setup {R : Type} (mon : monitor R) : Prop :=
  forall r e, is_training_event e = false -> allowed mon r e.

(** Events the loop body can emit at all. *)
Definition loop_event (e : event) : Prop :=
  match e with
  | EvWandbLog _ _ => True
  | EvPrint text =>
      text = "positive_latents" \/ text = "neutral_latents" \/ text = "negative_latents"
  | _ => is_training_event e = true
  end.

(** The log of a run whose loop body never executes: lines 50-115, then lines
    199-211 up to the first name that cannot be deleted. *)
Definition prologue_log (a : train_args) : list event :=
  if enable_wandb a
  then [EvWandbInit "LECO"; EvWandbConfig (wandb_config a)]
  else [].

Definition run_without_iterations (a : train_args) : list event :=
  prologue_log a ++
  [ EvLoadModels (pretrained_model a) (scheduler_name a) (v2 a) (v_pred a);
    EvTo "text_encoder" DEVICE_CUDA (weight_dtype_of (precision a));
    EvEval "text_encoder";
    EvTo "unet" DEVICE_CUDA (weight_dtype_of (precision a));
    EvEval "unet";
    EvNewNetwork (rank a) (weight_dtype_of (precision a));
    EvNewOptimizer (lr a);
    EvGetTextEmbeddings false [""] 1;
    EvGetTextEmbeddings false [prompt a] 1;
    EvDel "tokenizer";
    EvDel "text_encoder";
    EvEmptyCache;
    EvPrint "grads: network";
    EvCheckRequiresGrad;
    EvPrint "training mode: network";
    EvCheckTrainingMode;
    EvPrint "Saving...";
    EvMkdir (save_path a) true true;
    EvSaveWeights (path_join C (save_path a) (weight_file_name (prompt a)))
      (weight_dtype_of (precision a)) (initial_params a);
    EvDel "unet";
    EvDel "scheduler" ].

(** The locals that only the loop body binds and that line 209-219 deletes. *)
Definition loop_locals : list string :=
  [ "loss"; "negative_latents"; "neutral_latents"; "positive_latents"; "latents" ].

(** Erasing the experiment-tracker configuration from a log. *)
Definition is_wandb_config (e : event) : bool :=
  match e with
  | EvWandbConfig _ => true
  | _ => false
  end.

Definition without_wandb_config (tr : list event) : list event :=
  List.filter (fun e => negb (is_wandb_config e)) tr.

(** [train] called with another neutral prompt. *)
Definition with_neutral_prompt (p : string) (a : train_args) : train_args :=
  {| prompt := prompt a; pretrained_model := pretrained_model a;
     modules := modules a; iterations := iterations a; neutral_prompt := p;
     rank := rank a; alpha := alpha a; negative_guidance := negative_guidance a;
     lr := lr a; save_path := save_path a; v2 := v2 a; v_pred := v_pred a;
     precision := precision a; scheduler_name := scheduler_name a;
     enable_wandb := enable_wandb a |}.

(** *** Further disciplines of the loop body *)

(** The two discretisations: the initial latents and the partial denoising
    use the [DDIM_STEPS]-step schedule, from step 0 to the coarse index drawn,
    with guidance 3; the timestep lookup and the three noise predictions use
    the 1000-step schedule, with guidance 1. *)
Definition schedule_monitor : monitor (option Z * option Z) := {|
  next r e :=
    match e with
    | EvSetTimesteps n => (Some n, snd r)
    | EvRandint _ _ drawn => (fst r, Some drawn)
    | _ => r
    end;
  allowed r e :=
    match e with
    | EvInitialLatents n_imgs img_size n_prompts =>
        fst r = Some DDIM_STEPS /\ n_imgs = 1 /\ img_size = 512 /\ n_prompts = 1
    | EvDiffusion _ _ start total guidance =>
        fst r = Some DDIM_STEPS /\ start = 0 /\ snd r = Some total /\ guidance = 3
    | EvTimestepIndex _ => fst r = Some 1000
    | EvPredictNoise _ _ _ _ guidance _ => fst r = Some 1000 /\ guidance = 1
    | _ => True
    end;
|}.

(** Gradients: cleared, then computed by one backward pass, then applied. *)
Inductive grad_phase : Type :=
| grads_unknown | grads_cleared | grads_computed | grads_applied.

Definition gradient_monitor : monitor grad_phase := {|
  next r e :=
    match e with
    | EvZeroGrad => grads_cleared
    | EvBackward _ => grads_computed
    | EvOptimizerStep _ _ => grads_applied
    | _ => r
    end;
  allowed r e :=
    match e with
    | EvBackward _ => r = grads_cleared
    | EvOptimizerStep _ _ => r = grads_computed
    | _ => True
    end;
|}.

(** Gradient tracking: off for the embeddings, the partial denoising and the
    two reference predictions; the mode of the caller for the third
    prediction. *)
Definition grad_ok (caller : bool) (e : event) : Prop :=
  match e with
  | EvGetTextEmbeddings grad _ _ => grad = false
  | EvDiffusion _ grad _ _ _ => grad = false
  | EvPredictNoise site_negative _ grad _ _ _ => grad = caller
  | EvPredictNoise _ _ grad _ _ _ => grad = false
  | _ => True
  end.

(** Optimizer steps of a log. *)
Definition is_optimizer_step (e : event) : bool :=
  match e with
  | EvOptimizerStep _ _ => true
  | _ => false
  end.

Definition optimizer_steps (tr : list event) : nat :=
  length (List.filter is_optimizer_step tr).

(** Events of the experiment tracker. *)
Definition is_wandb_event (e : event) : bool :=
  match e with
  | EvWandbInit _ | EvWandbConfig _ | EvWandbLog _ _ => true
  | _ => false
  end.

(** [train] called with other values for the two arguments that the body
    only hands to the experiment tracker. *)
Definition with_alpha_modules (x : Scalar) (ms : list string) (a : train_args)
    : train_args :=
  {| prompt := prompt a; pretrained_model := pretrained_model a;
     modules := ms; iterations := iterations a;
     neutral_prompt := neutral_prompt a;
     rank := rank a; alpha := x; negative_guidance := negative_guidance a;
     lr := lr a; save_path := save_path a; v2 := v2 a; v_pred := v_pred a;
     precision := precision a; scheduler_name := scheduler_name a;
     enable_wandb := enable_wandb a |}.

(** One working precision and one device: what the models are moved to, what
    the network is built in, and what the weights are saved in. *)
Definition precision_ok (d : Torch.dtype) (e : event) : Prop :=
  match e with
  | EvTo _ device d' => device = DEVICE_CUDA /\ d' = d
  | EvNewNetwork _ d' => d' = d
  | EvSaveWeights _ d' _ => d' = d
  | _ => True
  end.

(** No sampler call raises, and the 1000-step schedule has its 1000
    timesteps. *)
Definition sampler_never_raises : Prop :=
  (forall m ad g p sc latents emb start total guidance e,
     diffusion C m ad g p sc latents emb start total guidance <> inl e) /\
  (forall m ad g p sc timestep latents emb guidance e,
     predict_noise C m ad g p sc timestep latents emb guidance <> inl e) /\
  (forall m, length (scheduler_timesteps C m (Some 1000)) = 1000%nat).

(** The names the cleanup of lines 209-219 deletes. *)
Definition cleanup_names : list string :=
  [ "unet"; "scheduler"; "loss"; "optimizer"; "network";
    "negative_latents"; "neutral_latents"; "positive_latents"; "latents" ].

End Script.

Arguments collaborators : clear implicits.
Arguments Ok {A} a.
Arguments Raise {A} e.
Arguments Res {Tensor Scalar Params Optimizer Grads Rng Path A} out st log.
Arguments out {Tensor Scalar Params Optimizer Grads Rng Path A} r.
Arguments st {Tensor Scalar Params Optimizer Grads Rng Path A} r.
Arguments log {Tensor Scalar Params Optimizer Grads Rng Path A} r.
Arguments next {Tensor Scalar Params Path R} m r e.
Arguments allowed {Tensor Scalar Params Path R} m r e.

(** ** A small concrete world

    Tensors are vectors of rationals, the models are trivial, and the network
    has one parameter that is added to a prediction when the adapter is
    enabled.  It serves to run the script on concrete inputs. *)

Module Toy.

Definition vec : Type := list Q.

Definition vmap2 (f : Q -> Q -> Q) (x y : vec) : vec :=
  map (fun p => Qred (f (fst p) (snd p))) (combine x y).

Definition vsum (x : vec) : Q := fold_right Qplus 0%Q x.

Definition mse (x y : vec) : vec :=
  let d := vmap2 Qminus x y in
  [Qred (vsum (map (fun v => Qmult v v) d) / inject_Z (Z.of_nat (length d)))%Q].

Definition embed (prompts : list string) : vec :=
  map (fun p => inject_Z (Z.of_nat (String.length p))) prompts.

Definition shift (ad : adapter_state) (p : Q) (x : vec) : vec :=
  match ad with
  | ENABLED => map (fun v => Qred (v + p)%Q) x
  | DISABLED => x
  end.

(** [n] timesteps of a 1000-step training schedule, latest first. *)
Definition timesteps (steps : option Z) : list Z :=
  match steps with
  | Some n => map (fun k => (n - 1 - k) * (1000 / n)) (Py.range n)
  | None => []
  end.

(** [sampler_fails] makes every adapter-enabled noise prediction raise. *)
Definition world (sampler_fails : bool) : collaborators vec Q unit Q Q Q Z string := {|
  load_models _ _ _ _ := tt;
  new_network _ _ _ := 0%Q;
  initial_adapter := ENABLED;
  get_text_embeddings _ _ prompts _ := embed prompts;
  get_initial_latents _ _ g _ _ _ _ := ([inject_Z g], g + 1);
  diffusion _ ad _ p _ latents emb _ total _ :=
    inr (shift ad p (vmap2 Qplus latents (map (fun v => Qmult v (inject_Z total)) emb)));
  predict_noise _ ad _ p _ timestep latents emb _ :=
    match ad, sampler_fails with
    | ENABLED, true => inl (Py.RuntimeError "CUDA out of memory")
    | _, _ => inr (shift ad p (vmap2 Qplus latents emb))
    end;
  scheduler_timesteps _ steps := timesteps steps;
  rng_next g := (g * 7 + 5, g + 1);
  to_cpu_float32 x := x;
  tensor_sub := vmap2 Qminus;
  scalar_mul c x := map (fun v => Qred (c * v)%Q) x;
  MSELoss := mse;
  new_optimizer _ rate := rate;
  backward _ _ loss := hd 0%Q loss;
  optimizer_step rate p g := (rate, Qred (p - rate * match g with Some v => v | None => 0 end)%Q);
  path_join dir name := (dir +:+ "/" +:+ name)%string;
  path_str dir := dir;
|}.

Definition args (n : Z) (neutral : string) (wandb : bool) : @train_args Q string := {|
  prompt := "van gogh";
  pretrained_model := "runwayml/stable-diffusion-v1-5";
  modules := ["Attention"];
  iterations := n;
  neutral_prompt := neutral;
  rank := 4;
  alpha := 1%Q;
  negative_guidance := 1%Q;
  lr := (1 # 100000)%Q;
  save_path := "./output";
  v2 := false;
  v_pred := false;
  precision := "bfloat16";
  scheduler_name := "lms";
  enable_wandb := wandb;
|}.

(** The state before the call: gradient mode on, generator seeded with 0, no
    names bound. *)
Definition start : @state Q Q Q Z := {|
  adapter := DISABLED;
  grad_enabled := true;
  scheduler := None;
  rng := 0;
  params := 0%Q;
  optim := 0%Q;
  grads := None;
  frame := ∅;
|}.

End Toy.

(** ** The two debugging helpers, in full

    Lines 20-30.  Both helpers walk [list(model.named_modules())[:5]] and
    print lines. *)

Module Debug.

(** A [torch.nn.Module]: the parameters registered on the module itself (name
    and [requires_grad]), its [training] flag, and its named children in the
    order of registration.  A module is a tree: no module and no parameter is
    registered twice. *)
#[warnings="-register-all"]
Inductive module : Type :=
| NNModule (own : list (string * bool)) (flag : bool) (subs : list (string * module)).

Definition own_parameters (m : module) : list (string * bool) :=
  match m with NNModule own _ _ => own end.

Definition training (m : module) : bool :=
  match m with NNModule _ flag _ => flag end.

Definition children (m : module) : list (string * module) :=
  match m with NNModule _ _ subs => subs end.

(** An entry of [named_modules()]: the qualified name, and the module. *)
Definition module_info : Type := string * module.

Definition module_name (e : module_info) : string := fst e.

(** [prefix + ("." if prefix else "") + name]. *)
Definition qualify (prefix name : string) : string :=
  if String.eqb prefix "" then name else prefix +:+ "." +:+ name.

(** [module.named_modules(prefix=prefix)]: the module itself, then what each
    child yields, depth first. *)
Fixpoint named_modules_from (prefix : string) (m : module) : list module_info :=
  match m with
  | NNModule _ _ subs =>
      (prefix, m)
        :: flat_map (fun c => named_modules_from (qualify prefix (fst c)) (snd c)) subs
  end.

Definition named_modules (model : module) : list module_info :=
  named_modules_from "" model.

(** [module.named_parameters()]: for every module that [named_modules()]
    yields, its own parameters under their qualified names. *)
Definition named_parameters (m : module) : list (string * bool) :=
  flat_map
    (fun e => map (fun p => (qualify (fst e) (fst p), snd p)) (own_parameters (snd e)))
    (named_modules m).

(** [module.parameters()]. *)
Definition parameters (m : module) : list bool := map snd (named_parameters m).

(** [f"{b}"] for a Python bool. *)
Definition show_bool (b : bool) : string := if b then "True" else "False".

Definition parameter_line (np : string * bool) : string :=
  "    Parameter: " +:+ fst np +:+ ", Requires Grad: " +:+ show_bool (snd np).

(** Lines 20-25: the first five modules; for each one that has parameters,
    its name and its first two parameters.  The argument is what
    [model.named_modules()] yields. *)
Definition check_requires_grad (named_modules : list module_info) : list string :=
  flat_map
    (fun e =>
       if (0 <? length (parameters (snd e)))%nat
       then ("Module: " +:+ module_name e)
              :: map parameter_line (firstn 2 (named_parameters (snd e)))
       else [])
    (firstn 5 named_modules).

(** Lines 28-30: the training flag of the first five modules. *)
Definition check_training_mode (named_modules : list module_info) : list string :=
  map (fun e => "Module: " +:+ module_name e +:+ ", Training Mode: "
                +:+ show_bool (training (snd e)))
      (firstn 5 named_modules).

End Debug.

(** A model with five children; the first child has no parameters, the third
    is in evaluation mode. *)
Definition six_model : Debug.module :=
  Debug.NNModule
    [("lora_down.weight", true); ("lora_up.weight", true); ("alpha", false)] true
    [ ("act", Debug.NNModule [] true []);
      ("a", Debug.NNModule [("w", true)] true []);
      ("b", Debug.NNModule [("w", false)] false []);
      ("c", Debug.NNModule [("w", true)] true []);
      ("d", Debug.NNModule [("w", true)] true []) ].

Definition six_modules : list Debug.module_info := Debug.named_modules six_model.

(** Four activations in a row, and the same with a linear layer appended. *)
Definition activation : Debug.module := Debug.NNModule [] true [].

Definition four_activations : Debug.module :=
  Debug.NNModule [] true
    [("0", activation); ("1", activation); ("2", activation); ("3", activation)].

Definition four_activations_and_linear : Debug.module :=
  Debug.NNModule [] true
    [ ("0", activation); ("1", activation); ("2", activation); ("3", activation);
      ("4", Debug.NNModule [("weight", true); ("bias", true)] true []) ].

(** * Properties *)

(** ** Values the script computes itself *)

Lemma randint_range (low high raw : Z) :
  low < high -> low <= Torch.randint low high raw < high.
Proof.
  intros H. unfold Torch.randint.
  pose proof (Z.mod_pos_bound raw (high - low)). lia.
Qed.

Lemma draw_timesteps_to_range (raw : Z) :
  1 <= draw_timesteps_to raw <= DDIM_STEPS - 2.
Proof.
  unfold draw_timesteps_to.
  pose proof (randint_range 1 (DDIM_STEPS - 1) raw). unfold DDIM_STEPS in *. lia.
Qed.

Lemma range_In (n k : Z) : 0 <= k < n -> In k (Py.range n).
Proof.
  intros H. unfold Py.range. apply in_map_iff. exists (Z.to_nat k).
  split; [lia|]. apply in_seq. lia.
Qed.











(** Both conversions of the quotient, checked on a coarse index. *)
Definition fine_index_check (c : Z) : bool :=
  match fine_index c, fine_index_rounded c with
  | inr x, inr y => (x =? c * 1000 / DDIM_STEPS) && (y =? c * 1000 / DDIM_STEPS)
  | _, _ => false
  end.

Lemma fine_index_table :
  forallb fine_index_check (map (Z.add 1) (Py.range (DDIM_STEPS - 2))) = true.
Proof. vm_compute. reflexivity. Qed.

Lemma fine_index_exact (c : Z) :
  1 <= c <= DDIM_STEPS - 2 ->
  fine_index c = inr (c * 1000 / DDIM_STEPS) /\
  fine_index_rounded c = inr (c * 1000 / DDIM_STEPS).
Proof.
  intros H.
  assert (Hin : In c (map (Z.add 1) (Py.range (DDIM_STEPS - 2)))).
  { apply in_map_iff. exists (c - 1). split; [lia|]. apply range_In. lia. }
  pose proof (proj1 (forallb_forall _ _) fine_index_table c Hin) as Hc.
  unfold fine_index_check in Hc.
  destruct (fine_index c) as [|x]; [discriminate|].
  destruct (fine_index_rounded c) as [|y]; [discriminate|].
  apply andb_prop in Hc. destruct Hc as [Hx Hy].
  apply Z.eqb_eq in Hx, Hy. subst. split; reflexivity.
Qed.

Lemma fine_quotient_exact (c : Z) :
  (c * 1000) mod DDIM_STEPS = 0 /\ c * 1000 / DDIM_STEPS = 20 * c.
Proof.
  unfold DDIM_STEPS. replace (c * 1000) with (20 * c * 50) by lia.
  split; [apply Z.mod_mul; lia | apply Z.div_mul; lia].
Qed.

(** Replacing one character by another is a character-wise map. *)
Lemma replace_char_map (x y : ascii) (s : string) :
  Py.replace_go (String x EmptyString) (String y EmptyString) O s =
  Py.map_char (fun c => if Ascii.eqb x c then y else c) s.
Proof.
  induction s as [|c s IH]; [reflexivity|].
  cbn [Py.replace_go Py.map_char].
  assert (Hp : String.prefix (String x EmptyString) (String c s) = Ascii.eqb x c).
  { cbn. destruct (ascii_dec x c), (Ascii.eqb_spec x c); try congruence.
    destruct s; reflexivity. }
  rewrite Hp. cbn [String.length Nat.sub]. rewrite IH.
  destruct (Ascii.eqb x c); reflexivity.
Qed.

Lemma concept_name_map (p : string) :
  concept_name p = Py.map_char (fun c => if Ascii.eqb " " c then "_"%char else c) p.
Proof. unfold concept_name, Py.str_replace. apply replace_char_map. Qed.

Lemma map_char_length (f : ascii -> ascii) (s : string) :
  String.length (Py.map_char f s) = String.length s.
Proof. induction s; cbn; congruence. Qed.

Lemma map_char_get (f : ascii -> ascii) (s : string) (n : nat) :
  String.get n (Py.map_char f s) = option_map f (String.get n s).
Proof.
  revert n. induction s as [|c s IH]; intros [|n]; cbn; auto.
Qed.

(** ** Runs of the script *)

Section Proofs.

Context {Tensor Scalar Models Params Optimizer Grads Rng Path : Type}.
Variable C : collaborators Tensor Scalar Models Params Optimizer Grads Rng Path.

Local Abbreviation state := (@state Params Optimizer Grads Rng).
Local Abbreviation event := (@event Tensor Scalar Params Path).
Local Abbreviation M := (@M Tensor Scalar Params Optimizer Grads Rng Path).
Local Abbreviation train_args := (@train_args Scalar Path).
Local Abbreviation post A := (outcome A -> state -> list event -> Prop).

(** *** Rules of symbolic execution, one per statement form *)

Lemma wp_bind {A B : Type} (m : M A) (k : A -> M B) (K : post _) s :
  wp m (fun o s1 l1 =>
          match o with
          | Ok x => wp (k x) (fun o2 s2 l2 => K o2 s2 (l1 ++ l2)) s1
          | Raise e => K (Raise e) s1 l1
          end) s ->
  wp (bind m k) K s.
Proof. unfold wp, bind. destruct (out (m s)); auto. Qed.

Lemma wp_conseq {A : Type} (m : M A) (K K' : post A) s :
  wp m K s -> (forall o s' l, K o s' l -> K' o s' l) -> wp m K' s.
Proof. unfold wp. auto. Qed.

Lemma wp_ret {A : Type} (x : A) (K : post _) (s : state) : K (Ok x) s [] -> wp (ret x) K s.
Proof. exact id. Qed.

Lemma wp_raise {A : Type} (e : Py.exn) (K : post _) (s : state) :
  K (Raise e) s [] -> wp (@raise _ _ _ _ _ _ _ A e) K s.
Proof. exact id. Qed.

Lemma wp_emit (ev : event) (K : post _) (s : state) : K (Ok tt) s [ev] -> wp (emit ev) K s.
Proof. exact id. Qed.

Lemma wp_gets {A : Type} (f : state -> A) (K : post _) s : K (Ok (f s)) s [] -> wp (gets f) K s.
Proof. exact id. Qed.

Lemma wp_modify (f : state -> state) (K : post _) s : K (Ok tt) (f s) [] -> wp (modify f) K s.
Proof. exact id. Qed.

Lemma wp_assign name (K : post _) (s : state) :
  K (Ok tt) (set_frame ({[name]} ∪ frame s) s) [] -> wp (assign name) K s.
Proof. exact id. Qed.

Lemma wp_lift {A : Type} (x : Py.exn + A) (K : post _) (s : state) :
  match x with
  | inl e => K (Raise e) s []
  | inr v => K (Ok v) s []
  end ->
  wp (lift x) K s.
Proof. destruct x; exact id. Qed.

Lemma wp_when (b : bool) (m : M unit) (K : post _) s :
  (if b then wp m K s else K (Ok tt) s []) -> wp (when b m) K s.
Proof. destruct b; exact id. Qed.

Lemma wp_when_emit (b : bool) (ev : event) (K : post _) (s : state) :
  K (Ok tt) s (if b then [ev] else []) -> wp (when b (emit ev)) K s.
Proof. destruct b; exact id. Qed.

Lemma wp_del name (K : post _) (s : state) :
  (if bool_decide (name ∈ frame s)
   then K (Ok tt) (set_frame (frame s ∖ {[name]}) s) [EvDel name]
   else K (Raise (Py.UnboundLocalError name)) s []) ->
  wp (del name) K s.
Proof. unfold wp, del. destruct (bool_decide (name ∈ frame s)); exact id. Qed.

Lemma wp_no_grad {A : Type} (body : M A) (K : post _) s :
  wp body (fun o s1 l1 => K o (set_grad_enabled (grad_enabled s) s1) l1)
     (set_grad_enabled false s) ->
  wp (no_grad body) K s.
Proof. exact id. Qed.

Lemma wp_with_network {A : Type} (body : M A) (K : post _) s :
  wp body (fun o s1 l1 => K o (set_adapter DISABLED s1)
                            (EvEnterScope :: l1 ++ [EvExitScope]))
     (set_adapter ENABLED s) ->
  wp (with_network body) K s.
Proof. exact id. Qed.

Lemma wp_set_timesteps n (K : post _) (s : state) :
  K (Ok tt) (set_scheduler (Some n) s) [EvSetTimesteps n] ->
  wp (set_timesteps n) K s.
Proof. exact id. Qed.

Lemma wp_zero_grad (K : post _) (s : state) :
  K (Ok tt) (set_grads None s) [EvZeroGrad] -> wp zero_grad K s.
Proof. exact id. Qed.

Lemma wp_call_randint low high (K : post _) s :
  (forall raw g, rng_next C (rng s) = (raw, g) ->
     K (Ok (Torch.randint low high raw)) (set_rng g s)
       [EvRandint low high (Torch.randint low high raw)]) ->
  wp (call_randint C low high) K s.
Proof.
  intros H. unfold wp, call_randint.
  destruct (rng_next C (rng s)) as [raw g] eqn:E. exact (H raw g eq_refl).
Qed.

Lemma wp_call_get_text_embeddings m d prompts n (K : post _) s :
  K (Ok (get_text_embeddings C m d prompts n)) s
    [EvGetTextEmbeddings (grad_enabled s) prompts n] ->
  wp (call_get_text_embeddings C m d prompts n) K s.
Proof. exact id. Qed.

Lemma wp_call_get_initial_latents m n i p d (K : post _) s :
  (forall t g, get_initial_latents C m (scheduler s) (rng s) n i p d = (t, g) ->
     K (Ok t) (set_rng g s) [EvInitialLatents n i p]) ->
  wp (call_get_initial_latents C m n i p d) K s.
Proof.
  intros H. unfold wp, call_get_initial_latents.
  destruct (get_initial_latents C m (scheduler s) (rng s) n i p d) as [t g] eqn:E.
  exact (H t g eq_refl).
Qed.

Lemma wp_call_diffusion m latents emb a b g (K : post _) s :
  (forall r,
     r = diffusion C m (adapter s) (grad_enabled s) (params s) (scheduler s)
           latents emb a b g ->
     K (match r with inl e => Raise e | inr t => Ok t end) s
       [EvDiffusion (adapter s) (grad_enabled s) a b g]) ->
  wp (call_diffusion C m latents emb a b g) K s.
Proof. intros H. exact (H _ eq_refl). Qed.

Lemma wp_call_predict_noise site m ts latents emb g (K : post _) s :
  (forall r,
     r = match predict_noise C m (adapter s) (grad_enabled s) (params s)
                 (scheduler s) ts latents emb g with
         | inl e => inl e
         | inr t => inr (to_cpu_float32 C t)
         end ->
     K (match r with inl e => Raise e | inr t => Ok t end) s
       [EvPredictNoise site (adapter s) (grad_enabled s) emb g r]) ->
  wp (call_predict_noise C site m ts latents emb g) K s.
Proof. intros H. exact (H _ eq_refl). Qed.

Lemma wp_call_backward recorded loss (K : post _) s :
  (recorded = true ->
   K (Ok tt) (set_grads (Some (backward C (params s) (grads s) loss)) s)
     [EvBackward loss]) ->
  (recorded = false ->
   K (Raise (Py.RuntimeError
               "element 0 of tensors does not require grad and does not have a grad_fn"))
     s []) ->
  wp (call_backward C recorded loss) K s.
Proof. unfold wp, call_backward. destruct recorded; auto. Qed.

Lemma wp_call_optimizer_step (K : post _) s :
  (forall o p, optimizer_step C (optim s) (params s) (grads s) = (o, p) ->
     K (Ok tt) (set_params p (set_optim o s)) [EvOptimizerStep (params s) p]) ->
  wp (call_optimizer_step C) K s.
Proof.
  intros H. unfold wp, call_optimizer_step.
  destruct (optimizer_step C (optim s) (params s) (grads s)) as [o p] eqn:E.
  exact (H o p eq_refl).
Qed.

(** A loop keeps an invariant on the state and on the log so far. *)
Lemma wp_for_each (I : state -> list event -> Prop) (body : Z -> M unit) l (K : post _) s :
  I s [] ->
  (forall i s1 l1, I s1 l1 ->
     wp (body i) (fun o s2 l2 =>
                    match o with
                    | Ok _ => I s2 (l1 ++ l2)
                    | Raise e => K (Raise e) s2 (l1 ++ l2)
                    end) s1) ->
  (forall s1 l1, I s1 l1 -> K (Ok tt) s1 l1) ->
  wp (for_each l body) K s.
Proof.
  intros H0 Hbody Hend.
  assert (G : forall l' s1 l1, I s1 l1 ->
            wp (for_each l' body) (fun o s2 l2 => K o s2 (l1 ++ l2)) s1).
  { intros l'. induction l' as [|i l' IH]; intros s1 l1 HI.
    - change (K (Ok tt) s1 (l1 ++ [])). rewrite app_nil_r. auto.
    - simpl. apply wp_bind. specialize (Hbody i s1 l1 HI).
      unfold wp in *. destruct (out (body i s1)); [|exact Hbody].
      specialize (IH _ _ Hbody). unfold wp in IH.
      rewrite <- app_assoc in IH. exact IH. }
  exact (G l s [] H0).
Qed.

(** One step of symbolic execution, chosen by the statement at the head. *)
Ltac wp_step :=
  lazymatch goal with
  | |- wp (bind _ _) _ _ => apply wp_bind
  | |- wp (ret _) _ _ => apply wp_ret
  | |- wp (raise _) _ _ => apply wp_raise
  | |- wp (when ?b (emit _)) _ _ => apply wp_when_emit
  | |- wp (emit _) _ _ => apply wp_emit
  | |- wp (gets _) _ _ => apply wp_gets
  | |- wp (modify _) _ _ => apply wp_modify
  | |- wp (assign _) _ _ => apply wp_assign
  | |- wp (no_grad _) _ _ => apply wp_no_grad
  | |- wp (with_network _) _ _ => apply wp_with_network
  | |- wp (set_timesteps _) _ _ => apply wp_set_timesteps
  | |- wp zero_grad _ _ => apply wp_zero_grad
  | |- wp check_requires_grad _ _ => apply wp_emit
  | |- wp check_training_mode _ _ => apply wp_emit
  | |- wp (call_get_text_embeddings _ _ _ _ _) _ _ => apply wp_call_get_text_embeddings
  | |- wp (call_backward _ _ _) _ _ => apply wp_call_backward; intros ?
  | |- wp (call_randint _ _ _) _ _ => apply wp_call_randint; intros ? ? ?
  | |- wp (call_get_initial_latents _ _ _ _ _ _) _ _ =>
      apply wp_call_get_initial_latents; intros ? ? ?
  | |- wp (call_optimizer_step _) _ _ => apply wp_call_optimizer_step; intros ? ? ?
  | |- wp (call_diffusion _ _ _ _ _ _ _) _ _ => apply wp_call_diffusion; intros [?|?] ?
  | |- wp (call_predict_noise _ _ _ _ _ _ _) _ _ =>
      apply wp_call_predict_noise; intros [?|?] ?
  | |- wp (when ?b _) _ _ => apply wp_when; destruct b eqn:?
  | |- wp (lift ?x) _ _ => apply wp_lift; destruct x eqn:?
  end;
  cbv beta iota;
  cbn [adapter grad_enabled scheduler rng params optim grads frame
       set_adapter set_grad_enabled set_scheduler set_rng set_params set_optim
       set_grads set_frame].

Ltac wp_run := repeat wp_step.

(** Reading fields through the state updates. *)
Ltac fields :=
  cbn [adapter grad_enabled scheduler rng params optim grads frame
       set_adapter set_grad_enabled set_scheduler set_rng set_params set_optim
       set_grads set_frame] in *.

(** *** Monitors *)

Lemma accepts_app {R : Type} (mon : monitor R) (r : R) (l1 l2 : list event) :
  accepts mon r (l1 ++ l2) <-> accepts mon r l1 /\ accepts mon (after mon r l1) l2.
Proof.
  revert r. induction l1 as [|e l1 IH]; intros r; cbn [app accepts after fold_left].
  - tauto.
  - rewrite IH. unfold after. tauto.
Qed.

Lemma accepts_each (P : event -> Prop) (r : unit) (l : list event) :
  accepts (each P) r l <-> Forall P l.
Proof.
  induction l as [|e l IH]; cbn [accepts].
  - split; auto.
  - rewrite IH. split.
    + intros [H1 H2]. constructor; assumption.
    + intros H. inversion H; subst. split; assumption.
Qed.

Lemma always_log {A R : Type} (mon : monitor R) (m : M A) :
  always mon m -> forall s r, accepts mon r (log (m s)).
Proof. intros H s r. exact (H s r). Qed.

Lemma always_bind {A B R : Type} (mon : monitor R) (m : M A) (k : A -> M B) :
  always mon m -> (forall x, always mon (k x)) -> always mon (bind m k).
Proof.
  intros Hm Hk s. apply wp_bind. unfold wp.
  destruct (out (m s)) as [x|e]; [|apply Hm].
  intros r. apply accepts_app. split; [apply Hm | apply Hk].
Qed.

Lemma always_for_each {R : Type} (mon : monitor R) (body : Z -> M unit) l :
  (forall i, always mon (body i)) -> always mon (for_each l body).
Proof.
  intros H. induction l as [|i l IH]; cbn [for_each].
  - intros s r. exact I.
  - apply always_bind; auto.
Qed.

Lemma always_no_grad {A R : Type} (mon : monitor R) (body : M A) :
  always mon body -> always mon (no_grad body).
Proof. intros H s. apply wp_no_grad. apply H. Qed.

(** Statements of the setup and saving phases emit no training event. *)
Ltac quiet_leaf H :=
  intros s; wp_run;
  try match goal with |- context [if ?b then _ else _] => destruct b end;
  intros r; cbn [accepts app]; repeat split; apply H; reflexivity.

Ltac quiet_chain H :=
  repeat first
    [ apply always_no_grad
    | apply always_bind; [quiet_leaf H | intros ?]
    | quiet_leaf H ].

Lemma always_del {R : Type} (mon : monitor R) name :
  ignores_setup mon -> always mon (del name : M unit).
Proof.
  intros H s. apply wp_del.
  destruct (bool_decide (name ∈ frame s)); intros r; cbn [accepts];
    repeat split. apply H. reflexivity.
Qed.

Lemma always_del_all {R : Type} (mon : monitor R) names :
  ignores_setup mon -> always mon (del_all names : M unit).
Proof.
  intros H. induction names as [|n names IH]; cbn [del_all].
  - intros s r. exact I.
  - apply always_bind; [apply always_del; exact H | intros; exact IH].
Qed.

(** Sequencing when the continuation needs to know the value produced. *)
Lemma always_bind_val {A B R : Type} (mon : monitor R) (m : M A) (k : A -> M B)
    (Q : A -> Prop) :
  always mon m ->
  (forall s x, out (m s) = Ok x -> Q x) ->
  (forall x, Q x -> always mon (k x)) ->
  always mon (bind m k).
Proof.
  intros Hm HQ Hk s. apply wp_bind. unfold wp.
  destruct (out (m s)) as [x|e] eqn:E; [|apply Hm].
  intros r. apply accepts_app. split; [apply Hm | apply Hk; eauto].
Qed.

Lemma embeddings_value a s x :
  out (embeddings C a (loaded_models C a) (weight_dtype_of (precision a)) s) = Ok x ->
  x = (neutral_embedding C a, target_embedding C a).
Proof. intros H. cbv in H. injection H as <-. reflexivity. Qed.

(** A monitor that is silent on the setup and saving phases and accepts every
    iteration accepts every run. *)
Lemma train_always {R : Type} (mon : monitor R) (a : train_args) :
  ignores_setup mon ->
  (forall i, always mon (train_step C a (loaded_models C a)
                           (weight_dtype_of (precision a))
                           (neutral_embedding C a) (target_embedding C a) i)) ->
  always mon (train C a).
Proof.
  intros H Hstep. unfold train, train_main.
  apply always_bind; [quiet_leaf H | intros _].
  apply always_bind.
  { intros s. apply wp_when. destruct (enable_wandb a); [wp_run|];
      intros r; cbn [accepts app]; repeat split; apply H; reflexivity. }
  intros _. cbv zeta.
  repeat lazymatch goal with
         | |- always _ (bind (embeddings _ _ _ _) _) => fail
         | |- _ => apply always_bind; [quiet_leaf H | intros ?]
         end.
  apply always_bind_val
    with (Q := fun x => x = (neutral_embedding C a, target_embedding C a)).
  { unfold embeddings. quiet_leaf H. }
  { intros s embs. apply embeddings_value. }
  intros embs ->.
  apply always_bind; [apply always_del; exact H | intros _].
  apply always_bind; [apply always_del; exact H | intros _].
  do 5 (apply always_bind; [quiet_leaf H | intros _]).
  apply always_bind.
  { unfold training_loop. apply always_for_each. exact Hstep. }
  intros _. unfold save_and_cleanup.
  do 5 (apply always_bind; [quiet_leaf H | intros ?]).
  apply always_bind; [apply always_del_all; exact H | intros _].
  apply always_bind; quiet_leaf H.
Qed.

(** *** One iteration *)

Lemma always_each_impl {A : Type} (P Q : event -> Prop) (m : M A) :
  (forall e, P e -> Q e) -> always (each P) m -> always (each Q) m.
Proof.
  intros HPQ H s r. apply accepts_each.
  eapply Forall_impl; [|exact HPQ]. apply (accepts_each P r). apply H.
Qed.

(** After symbolic execution: the log is a concrete list of events. *)
Ltac leaf a :=
  intros ?; fields; destruct (enable_wandb a);
  cbn [accepts app each next allowed fst snd].

Lemma train_step_events a m d ne pe i :
  always (each (fun e => loop_event e /\ scoped_ok ne pe e /\ draw_ok e))
         (train_step C a m d ne pe i).
Proof.
  intros s. unfold train_step. wp_run.
  all: leaf a.
  all: repeat split.
  all: cbn [loop_event is_training_event]; auto.
  all: apply (draw_timesteps_to_range raw).
Qed.

Lemma train_step_adapter a m d ne pe i s :
  adapter (st (train_step C a m d ne pe i s)) = DISABLED.
Proof.
  change (wp (train_step C a m d ne pe i) (fun _ s' _ => adapter s' = DISABLED) s).
  unfold train_step. wp_run.
  all: reflexivity.
Qed.

Lemma fine_index_drawn raw idx :
  fine_index (Torch.randint 1 (DDIM_STEPS - 1) raw) = inr idx ->
  fine_index_rounded (Torch.randint 1 (DDIM_STEPS - 1) raw) = inr idx /\
  0 <= idx < 1000.
Proof.
  intros H. pose proof (draw_timesteps_to_range raw) as Hr.
  unfold draw_timesteps_to in Hr.
  destruct (fine_index_exact _ Hr) as [H1 H2].
  rewrite H1 in H. injection H as <-. split; [exact H2|].
  destruct (fine_quotient_exact (Torch.randint 1 (DDIM_STEPS - 1) raw)) as [_ ->].
  unfold DDIM_STEPS in *. lia.
Qed.

Lemma train_step_index a m d ne pe i :
  always index_monitor (train_step C a m d ne pe i).
Proof.
  intros s. unfold train_step. wp_run.
  all: leaf a.
  all: cbn [index_monitor next allowed fst snd].
  all: repeat split.
  all: match goal with
       | H : fine_index _ = inr ?idx |- _ =>
           destruct (fine_index_drawn _ _ H) as [? ?];
           eexists; repeat split; first [eassumption | reflexivity | lia]
       end.
Qed.

Lemma train_step_loss a m d ne pe i :
  always (loss_monitor C (negative_guidance a)) (train_step C a m d ne pe i).
Proof.
  intros s. unfold train_step. wp_run.
  all: leaf a.
  all: cbn [loss_monitor next allowed fst snd record_prediction made_in
            target_off neutral_off adapter_on no_predictions].
  all: repeat split.
  all: do 3 eexists; repeat split; reflexivity.
Qed.

(** *** The loop *)

Lemma training_loop_events a m d ne pe s :
  Forall loop_event (log (training_loop C a m d ne pe s)).
Proof.
  apply (accepts_each loop_event tt).
  apply (always_log (each loop_event)).
  unfold training_loop. apply always_for_each. intros i.
  eapply always_each_impl; [|apply train_step_events].
  intros e H. apply H.
Qed.

Lemma wp_training_loop a m d ne pe K s :
  (forall o s' l, Forall loop_event l -> K o s' l) ->
  wp (training_loop C a m d ne pe) K s.
Proof. intros H. apply H. apply training_loop_events. Qed.

Lemma loop_event_no_embedding (l : list event) :
  Forall loop_event l -> embedding_requests l = [].
Proof.
  induction 1 as [|e l He _ IH]; [reflexivity|].
  unfold embedding_requests in *. cbn [flat_map]. rewrite IH.
  destruct e; try reflexivity. discriminate He.
Qed.

Lemma loop_event_no_file (l : list event) :
  Forall loop_event l -> file_events l = [].
Proof.
  induction 1 as [|e l He _ IH]; [reflexivity|].
  unfold file_events in *. cbn [List.filter]. rewrite IH.
  destruct e; try reflexivity; discriminate He.
Qed.

Lemma loop_event_not_saving (l : list event) :
  Forall loop_event l -> ~ In (EvPrint "Saving...") l.
Proof.
  intros H Hin. rewrite Forall_forall in H. 
  apply list_elem_of_In in Hin. specialize (H _ Hin).
  cbn in H. destruct H as [H|[H|H]]; discriminate H.
Qed.

(** Symbolic execution of the whole of [train]: the loop is summarised by the
    events it can emit, a [del] by both of its outcomes. *)
Ltac train_step_run :=
  lazymatch goal with
  | |- wp (train_main _ _) _ _ => unfold train_main; cbv zeta
  | |- wp (embeddings _ _ _ _) _ _ => unfold embeddings
  | |- wp (save_and_cleanup _ _ _) _ _ => unfold save_and_cleanup
  | |- wp (del_all _) _ _ => cbn [del_all]
  | |- wp (del _) _ _ =>
      apply wp_del;
      match goal with |- if ?x then _ else _ => destruct x end
  | |- wp (training_loop _ _ _ _ _ _) _ _ =>
      apply wp_training_loop; intros [[]|?] ? ? ?
  | |- _ => wp_step
  end;
  cbv beta iota;
  cbn [adapter grad_enabled scheduler rng params optim grads frame
       set_adapter set_grad_enabled set_scheduler set_rng set_params set_optim
       set_grads set_frame].

Ltac train_run := unfold train; repeat train_step_run.

Lemma train_embedding_requests a s :
  embedding_requests (log (train C a s)) =
  [(false, [""], 1); (false, [prompt a], 1)].
Proof.
  change (wp (train C a)
            (fun _ _ l => embedding_requests l =
                          [(false, [""], 1); (false, [prompt a], 1)]) s).
  train_run.
  all: unfold embedding_requests; cbn [flat_map app embedding_request].
  all: try reflexivity.
  all: rewrite ?flat_map_app;
       match goal with
       | H : Forall loop_event ?l |- _ =>
           change (flat_map embedding_request l) with (embedding_requests l);
           rewrite (loop_event_no_embedding l H)
       end.
  all: reflexivity.
Qed.

(** *** The weight file *)

Lemma train_file_events a s :
  In (EvPrint "Saving...") (log (train C a s)) ->
  file_events (log (train C a s)) =
  [ EvMkdir (save_path a) true true;
    EvSaveWeights (path_join C (save_path a) (weight_file_name (prompt a)))
      (weight_dtype_of (precision a)) (params (st (train C a s))) ].
Proof.
  change (wp (train C a)
            (fun _ s' l =>
               In (EvPrint "Saving...") l ->
               file_events l =
               [ EvMkdir (save_path a) true true;
                 EvSaveWeights (path_join C (save_path a) (weight_file_name (prompt a)))
                   (weight_dtype_of (precision a)) (params s') ]) s).
  train_run.
  all: cbn [app]; intros Hin.
  all: repeat (destruct Hin as [Hin|Hin]; [discriminate Hin|]).
  all: try (apply in_app_or in Hin; destruct Hin as [Hin|Hin];
            [exfalso; eapply loop_event_not_saving; eassumption|]).
  all: try (exfalso; cbn [In] in Hin; tauto).
  all: try (exfalso; eapply loop_event_not_saving; eassumption).
  all: unfold file_events; cbn [List.filter is_file_event].
  all: rewrite List.filter_app;
       match goal with
       | H : Forall loop_event ?l |- _ =>
           change (List.filter is_file_event l) with (file_events l);
           rewrite (loop_event_no_file l H)
       end.
  all: reflexivity.
Qed.

(** *** A run without iterations *)

(** Symbolic execution when the frame is known: a [del] is decided. *)
Ltac decide_del :=
  apply wp_del; fields;
  match goal with
  | |- if ?x then _ else _ =>
      let v := eval vm_compute in x in
      replace x with v by (vm_compute; reflexivity)
  end.

Ltac zero_step H :=
  lazymatch goal with
  | |- wp (train_main _ _) _ _ => unfold train_main; cbv zeta
  | |- wp (embeddings _ _ _ _) _ _ => unfold embeddings
  | |- wp (save_and_cleanup _ _ _) _ _ => unfold save_and_cleanup
  | |- wp (del_all _) _ _ => cbn [del_all]
  | |- wp (del _) _ _ => decide_del
  | |- wp (training_loop _ _ _ _ _ _) _ _ =>
      unfold training_loop; rewrite H; change (Py.range 0) with (@nil Z);
      cbn [for_each]
  | |- _ => wp_step
  end;
  cbv beta iota;
  fields.

Lemma train_zero_run a s :
  iterations a = 0 ->
  out (train C a s) = Raise (Py.UnboundLocalError "loss") /\
  log (train C a s) = run_without_iterations C a /\
  params (st (train C a s)) = initial_params C a /\
  forallb (fun name => negb (bool_decide (name ∈ frame (st (train C a s)))))
          loop_locals = true.
Proof.
  intros H.
  change (wp (train C a)
            (fun o s' l => o = Raise (Py.UnboundLocalError "loss") /\
                           l = run_without_iterations C a /\
                           params s' = initial_params C a /\
                           forallb (fun name => negb (bool_decide (name ∈ frame s')))
                                   loop_locals = true) s).
  unfold train. repeat zero_step H.
  all: unfold run_without_iterations, prologue_log;
       match goal with E : enable_wandb _ = _ |- _ => rewrite E end.
  all: repeat split.
  all: vm_compute; reflexivity.
Qed.

(** *** The neutral prompt *)

Lemma train_unfold a s :
  out (train C a s) = out (train_main C a (set_frame args_frame s)) /\
  st (train C a s) = st (train_main C a (set_frame args_frame s)) /\
  log (train C a s) =
    prologue_log C a ++ log (train_main C a (set_frame args_frame s)).
Proof.
  change (wp (train C a)
            (fun o s' l =>
               o = out (train_main C a (set_frame args_frame s)) /\
               s' = st (train_main C a (set_frame args_frame s)) /\
               l = prologue_log C a ++ log (train_main C a (set_frame args_frame s)))
            s).
  unfold train, prologue_log.
  apply wp_bind, wp_modify. cbv beta iota.
  apply wp_bind, wp_when.
  destruct (enable_wandb a).
  - apply wp_bind, wp_emit. cbv beta iota. apply wp_emit. cbv beta iota.
    unfold wp. cbn [app]. repeat split.
  - cbv beta iota. unfold wp. cbn [app]. repeat split.
Qed.

Lemma train_main_neutral_prompt a p q :
  train_main C (with_neutral_prompt p a) = train_main C (with_neutral_prompt q a).
Proof. reflexivity. Qed.

Lemma without_wandb_config_prologue a l :
  without_wandb_config (prologue_log C a ++ l) =
  (if enable_wandb a then [EvWandbInit "LECO"] else []) ++ without_wandb_config l.
Proof. unfold prologue_log. destruct (enable_wandb a); reflexivity. Qed.

(** *** Scoped activation *)

Lemma with_network_exit {A : Type} (body : M A) s :
  out (with_network body s) = out (body (set_adapter ENABLED s)) /\
  log (with_network body s) =
    EvEnterScope :: log (body (set_adapter ENABLED s)) ++ [EvExitScope] /\
  adapter (st (with_network body s)) = DISABLED.
Proof. repeat split. Qed.

(** *** The loss of a completed iteration *)

Lemma train_step_computes_loss a m d ne pe i s :
  out (train_step C a m d ne pe i s) = Ok tt ->
  exists p n q,
    let l := log (train_step C a m d ne pe i s) in
    let target := guidance_target C (negative_guidance a) p n in
    In (EvPredictNoise site_positive DISABLED false pe 1 (inr p)) l /\
    In (EvPredictNoise site_neutral DISABLED false ne 1 (inr n)) l /\
    In (EvPredictNoise site_negative ENABLED (grad_enabled s) pe 1 (inr q)) l /\
    In (EvCriteria q target (MSELoss C q target)) l /\
    In (EvBackward (MSELoss C q target)) l.
Proof.
  change (wp (train_step C a m d ne pe i)
            (fun o _ l =>
               o = Ok tt ->
               exists p n q,
                 let target := guidance_target C (negative_guidance a) p n in
                 In (EvPredictNoise site_positive DISABLED false pe 1 (inr p)) l /\
                 In (EvPredictNoise site_neutral DISABLED false ne 1 (inr n)) l /\
                 In (EvPredictNoise site_negative ENABLED (grad_enabled s) pe 1 (inr q)) l /\
                 In (EvCriteria q target (MSELoss C q target)) l /\
                 In (EvBackward (MSELoss C q target)) l) s).
  unfold train_step. wp_run.
  all: intros Hok; try discriminate Hok.
  all: do 3 eexists; cbv zeta; destruct (enable_wandb a); cbn [app In].
  all: repeat split.
  all: repeat (first [left; reflexivity | right]).
Qed.

(** ** The claims *)

(** C1.  In every completed iteration the loss is [MSELoss] of the
    adapter-enabled prediction against [neutral - g * (target_off - neutral)],
    where [target_off] and [neutral] are the two adapter-disabled predictions
    of that iteration and [g] is [negative_guidance]; over a whole run, every
    call of the criterion and every backward pass obeys the loss monitor. *)
Theorem C1_loss_is_mse_against_guidance_target (a : train_args) :
  (forall m d ne pe i s,
     out (train_step C a m d ne pe i s) = Ok tt ->
     exists p n q,
       let l := log (train_step C a m d ne pe i s) in
       let target := guidance_target C (negative_guidance a) p n in
       In (EvPredictNoise site_positive DISABLED false pe 1 (inr p)) l /\
       In (EvPredictNoise site_neutral DISABLED false ne 1 (inr n)) l /\
       In (EvPredictNoise site_negative ENABLED (grad_enabled s) pe 1 (inr q)) l /\
       In (EvCriteria q target (MSELoss C q target)) l /\
       In (EvBackward (MSELoss C q target)) l) /\
  (forall s r, accepts (loss_monitor C (negative_guidance a)) r (log (train C a s))).
Proof.
  split.
  - intros m d ne pe i s. apply train_step_computes_loss.
  - intros s r. apply always_log. apply train_always.
    + intros r' e He. destruct e; try exact I; discriminate He.
    + intros i. apply train_step_loss.
Qed.

(** C2 (as the code behaves).  Whatever neutral prompt is supplied, a run asks
    for exactly two embeddings, both with gradients off: first the one of the
    empty string, then the one of the concept prompt. *)
Theorem C2_neutral_embedding_from_empty_string (a : train_args) (p : string) s :
  embedding_requests (log (train C (with_neutral_prompt p a) s)) =
  [(false, [""], 1); (false, [prompt a], 1)].
Proof. apply (train_embedding_requests (with_neutral_prompt p a)). Qed.

(** C3.  A [with network:] scope runs its body with the adapter ENABLED and
    leaves it DISABLED whether the body returns or raises; in every run the
    partial denoising and the third prediction see ENABLED, the two reference
    predictions see DISABLED; every iteration ends with the adapter
    DISABLED, however it ends. *)
Theorem C3_adapter_scoped_activation :
  (forall (A : Type) (body : M A) s,
     out (with_network body s) = out (body (set_adapter ENABLED s)) /\
     log (with_network body s) =
       EvEnterScope :: log (body (set_adapter ENABLED s)) ++ [EvExitScope] /\
     adapter (st (with_network body s)) = DISABLED) /\
  (forall a s,
     Forall (scoped_ok (neutral_embedding C a) (target_embedding C a))
            (log (train C a s))) /\
  (forall a m d ne pe i s,
     adapter (st (train_step C a m d ne pe i s)) = DISABLED).
Proof.
  split; [|split].
  - intros A body s. apply with_network_exit.
  - intros a s. apply (accepts_each _ tt). apply always_log. apply train_always.
    + intros r e He. destruct e; try exact I; discriminate He.
    + intros i. eapply always_each_impl; [|apply train_step_events].
      intros e H. apply H.
  - intros. apply train_step_adapter.
Qed.

(** C4.  For a coarse index [c] in [1, DDIM_STEPS - 2] the index
    [int(c * 1000 / DDIM_STEPS)] is the exact quotient: it equals the rounded
    quotient, the division leaves no remainder, and it lies in [0, 1000); in
    every run the index used on the fine schedule is the one of the coarse
    index drawn in the same iteration. *)
Theorem C4_fine_index_exact (c : Z) :
  1 <= c <= DDIM_STEPS - 2 ->
  fine_index c = inr (c * 1000 / DDIM_STEPS) /\
  fine_index_rounded c = fine_index c /\
  (c * 1000) mod DDIM_STEPS = 0 /\
  0 <= c * 1000 / DDIM_STEPS < 1000 /\
  (forall a s r, accepts index_monitor r (log (train C a s))).
Proof.
  intros H. destruct (fine_index_exact c H) as [H1 H2].
  destruct (fine_quotient_exact c) as [H3 H4].
  repeat split; try congruence.
  - rewrite H4. unfold DDIM_STEPS in H. lia.
  - rewrite H4. unfold DDIM_STEPS in H. lia.
  - intros a s r. apply always_log. apply train_always.
    + intros r' e He. destruct e; try exact I; discriminate He.
    + intros i. apply train_step_index.
Qed.



(** C7.  Once the loop is over (the script announces that it saves), the file
    system sees exactly two events: the output directory is created with
    [parents] and [exist_ok], and the parameters of the network are written in
    the working precision to [save_path / (concept_name + "_last.safetensors")],
    where [concept_name] is the prompt with every space turned into an
    underscore. *)
Theorem C7_single_weight_file (a : train_args) s :
  In (EvPrint "Saving...") (log (train C a s)) ->
  file_events (log (train C a s)) =
    [ EvMkdir (save_path a) true true;
      EvSaveWeights (path_join C (save_path a) (weight_file_name (prompt a)))
        (weight_dtype_of (precision a)) (params (st (train C a s))) ] /\
  weight_file_name (prompt a) = concept_name (prompt a) +:+ "_last.safetensors" /\
  String.length (concept_name (prompt a)) = String.length (prompt a) /\
  (forall n, String.get n (concept_name (prompt a)) =
             option_map (fun c => if Ascii.eqb " " c then "_"%char else c)
                        (String.get n (prompt a))).
Proof.
  intros H. split; [apply train_file_events; exact H|].
  split; [reflexivity|]. rewrite concept_name_map.
  split; [apply map_char_length | intros n; apply map_char_get].
Qed.

(** C8.  With [iterations = 0] the run has no training event at all (no
    sampler call, no loss, no optimizer step), the parameters stay those the
    constructor of the network returned, and the weight file is still written,
    with these parameters. *)
Theorem C8_zero_iterations_saves_initial_weights (a : train_args) s :
  iterations a = 0 ->
  List.filter is_training_event (log (train C a s)) = [] /\
  params (st (train C a s)) = initial_params C a /\
  file_events (log (train C a s)) =
    [ EvMkdir (save_path a) true true;
      EvSaveWeights (path_join C (save_path a) (weight_file_name (prompt a)))
        (weight_dtype_of (precision a)) (initial_params C a) ].
Proof.
  intros H. destruct (train_zero_run a s H) as (_ & Hlog & Hparams & _).
  split; [|split; [exact Hparams|]].
  - rewrite Hlog. unfold run_without_iterations, prologue_log.
    destruct (enable_wandb a); reflexivity.
  - rewrite Hlog. unfold run_without_iterations, prologue_log.
    destruct (enable_wandb a); reflexivity.
Qed.

(** C9.  With [iterations = 0] the call does not return: after the weight file
    is written, the cleanup deletes [unet] and [scheduler] and then raises the
    unbound-local error at [loss]; none of the five names the loop body would
    have bound is bound, and the final message is never printed. *)
Theorem C9_zero_iterations_raises_unbound_local (a : train_args) s :
  iterations a = 0 ->
  out (train C a s) = Raise (Py.UnboundLocalError "loss") /\
  In (EvSaveWeights (path_join C (save_path a) (weight_file_name (prompt a)))
        (weight_dtype_of (precision a)) (initial_params C a))
     (log (train C a s)) /\
  ~ In (EvPrint "Done.") (log (train C a s)) /\
  forallb (fun name => negb (bool_decide (name ∈ frame (st (train C a s)))))
          loop_locals = true.
Proof.
  intros H. destruct (train_zero_run a s H) as (Hout & Hlog & _ & Hframe).
  rewrite Hlog. unfold run_without_iterations, prologue_log.
  split; [exact Hout|]. split; [|split; [|exact Hframe]].
  - apply in_or_app. right. cbn [In].
    repeat (first [left; reflexivity | right]).
  - intros Hin. apply in_app_or in Hin. destruct Hin as [Hin|Hin].
    + destruct (enable_wandb a); cbn [In] in Hin;
        repeat (destruct Hin as [Hin|Hin]; [discriminate Hin|]); exact Hin.
    + cbn [In] in Hin.
      repeat (destruct Hin as [Hin|Hin]; [discriminate Hin|]). exact Hin.
Qed.

(** C10 (as the code behaves).  Two calls that differ only in the neutral
    prompt end in the same outcome and the same state and produce the same
    log except for the dictionary stored in [wandb.config]: the same embedding
    requests, the same file events, and, without experiment tracking, the very
    same log. *)
Theorem C10_neutral_prompt_only_reaches_wandb_config (a : train_args) (p q : string) s :
  out (train C (with_neutral_prompt p a) s) = out (train C (with_neutral_prompt q a) s) /\
  st (train C (with_neutral_prompt p a) s) = st (train C (with_neutral_prompt q a) s) /\
  without_wandb_config (log (train C (with_neutral_prompt p a) s)) =
    without_wandb_config (log (train C (with_neutral_prompt q a) s)) /\
  embedding_requests (log (train C (with_neutral_prompt p a) s)) =
    embedding_requests (log (train C (with_neutral_prompt q a) s)) /\
  file_events (log (train C (with_neutral_prompt p a) s)) =
    file_events (log (train C (with_neutral_prompt q a) s)) /\
  (enable_wandb a = false ->
   log (train C (with_neutral_prompt p a) s) = log (train C (with_neutral_prompt q a) s)).
Proof.
  destruct (train_unfold (with_neutral_prompt p a) s) as (Ho1 & Hs1 & Hl1).
  destruct (train_unfold (with_neutral_prompt q a) s) as (Ho2 & Hs2 & Hl2).
  rewrite Ho1, Ho2, Hs1, Hs2, Hl1, Hl2.
  rewrite (train_main_neutral_prompt a p q).
  unfold prologue_log.
  change (enable_wandb (with_neutral_prompt p a)) with (enable_wandb a).
  change (enable_wandb (with_neutral_prompt q a)) with (enable_wandb a).
  generalize (train_main C (with_neutral_prompt q a) (set_frame args_frame s)).
  intros r.
  split; [reflexivity|]. split; [reflexivity|].
  destruct (enable_wandb a).
  - split; [reflexivity|]. split; [reflexivity|]. split; [reflexivity|].
    intros H. discriminate H.
  - split; [reflexivity|]. split; [reflexivity|]. split; [reflexivity|].
    intros _. reflexivity.
Qed.

(** ** Further properties of [train] *)

Lemma train_step_schedule a m d ne pe i :
  always schedule_monitor (train_step C a m d ne pe i).
Proof.
  intros s. unfold train_step. wp_run.
  all: leaf a.
  all: cbn [schedule_monitor next allowed fst snd].
  all: repeat split.
Qed.

(** X1.  In every run the initial latents and the partial denoising use the
    50-step schedule, the denoising going from step 0 to the coarse index just
    drawn with guidance 3, and the timestep lookup and all three noise
    predictions use the 1000-step schedule with guidance 1. *)
Theorem train_two_schedules (a : train_args) s r :
  accepts schedule_monitor r (log (train C a s)).
Proof.
  apply always_log. apply train_always.
  - intros r' e He. destruct e; try exact I; discriminate He.
  - intros i. apply train_step_schedule.
Qed.

Lemma train_step_gradients a m d ne pe i :
  always gradient_monitor (train_step C a m d ne pe i).
Proof.
  intros s. unfold train_step. wp_run.
  all: leaf a.
  all: cbn [gradient_monitor next allowed].
  all: repeat split.
Qed.

(** X2.  In every run each backward pass starts from gradients that were just
    cleared and each optimizer step applies the gradients of exactly one
    backward pass: gradients never accumulate over iterations. *)
Theorem train_gradients_never_accumulate (a : train_args) s r :
  accepts gradient_monitor r (log (train C a s)).
Proof.
  apply always_log. apply train_always.
  - intros r' e He. destruct e; try exact I; discriminate He.
  - intros i. apply train_step_gradients.
Qed.

(** Symbolic execution of [train] with a summary of the loop given as a
    lemma in [wp] form. *)
Ltac train_step_with loop_summary :=
  lazymatch goal with
  | |- wp (train_main _ _) _ _ => unfold train_main; cbv zeta
  | |- wp (embeddings _ _ _ _) _ _ => unfold embeddings
  | |- wp (save_and_cleanup _ _ _) _ _ => unfold save_and_cleanup
  | |- wp (del_all _) _ _ => cbn [del_all]
  | |- wp (del _) _ _ =>
      apply wp_del;
      match goal with |- if ?x then _ else _ => destruct x end
  | |- wp (training_loop _ _ _ _ _ _) _ _ =>
      eapply wp_conseq; [apply loop_summary | intros [[]|?] ? ? ?]
  | |- _ => wp_step
  end;
  cbv beta iota;
  cbn [adapter grad_enabled scheduler rng params optim grads frame
       set_adapter set_grad_enabled set_scheduler set_rng set_params set_optim
       set_grads set_frame].

Ltac train_run_with loop_summary :=
  unfold train; repeat train_step_with loop_summary.

(** Proving [Forall P] of a log made of known events and summarised parts. *)
Ltac forall_log :=
  repeat first
    [ assumption
    | match goal with
      | |- Forall _ [] => constructor
      | |- Forall _ (_ :: _) =>
          constructor; [cbn; first [exact I | reflexivity | tauto]|]
      | |- Forall _ (_ ++ _) => apply Forall_app; split
      end ].

Lemma train_step_grad_mode a m d ne pe i s :
  wp (train_step C a m d ne pe i)
     (fun _ s' l => grad_enabled s' = grad_enabled s /\
                    Forall (grad_ok (grad_enabled s)) l) s.
Proof.
  unfold train_step. wp_run.
  all: destruct (enable_wandb a); cbn [app].
  all: split; [reflexivity|].
  all: forall_log.
Qed.

Lemma training_loop_grad_mode a m d ne pe s :
  wp (training_loop C a m d ne pe)
     (fun _ s' l => grad_enabled s' = grad_enabled s /\
                    Forall (grad_ok (grad_enabled s)) l) s.
Proof.
  unfold training_loop.
  apply wp_for_each
    with (I := fun s' l => grad_enabled s' = grad_enabled s /\
                           Forall (grad_ok (grad_enabled s)) l).
  - split; [reflexivity | constructor].
  - intros i s1 l1 [Hg HF].
    pose proof (train_step_grad_mode a m d ne pe i s1) as H.
    unfold wp in *. rewrite Hg in H. destruct H as [H1 H2].
    destruct (out (train_step C a m d ne pe i s1));
      (split; [exact H1 | apply Forall_app; split; assumption]).
  - intros s1 l1 H. exact H.
Qed.

(** X3.  Gradient tracking: in every run the embeddings, the partial denoising and
    the two reference predictions are computed with gradients off, the third
    prediction with the gradient mode of the caller, and the gradient mode
    after the call is the one before it, however the call ends. *)
Theorem train_gradient_mode (a : train_args) s :
  grad_enabled (st (train C a s)) = grad_enabled s /\
  Forall (grad_ok (grad_enabled s)) (log (train C a s)).
Proof.
  change (wp (train C a)
            (fun _ s' l => grad_enabled s' = grad_enabled s /\
                           Forall (grad_ok (grad_enabled s)) l) s).
  train_run_with training_loop_grad_mode.
  all: cbn [app];
       repeat match goal with H : _ /\ _ |- _ => destruct H end.
  all: split; [first [reflexivity | assumption]|].
  all: forall_log.
Qed.

(** *** Counting optimizer steps *)

Lemma optimizer_steps_app (l1 l2 : list event) :
  optimizer_steps (l1 ++ l2) = (optimizer_steps l1 + optimizer_steps l2)%nat.
Proof. unfold optimizer_steps. rewrite List.filter_app, length_app. reflexivity. Qed.

Lemma range_length (n : Z) : length (Py.range n) = Z.to_nat n.
Proof. unfold Py.range. rewrite length_map, length_seq. reflexivity. Qed.

Lemma train_step_steps a m d ne pe i s :
  wp (train_step C a m d ne pe i)
     (fun o _ l => optimizer_steps l =
                   match o with Ok _ => 1%nat | Raise _ => 0%nat end) s.
Proof.
  unfold train_step. wp_run.
  all: destruct (enable_wandb a); reflexivity.
Qed.

Lemma for_each_steps (body : Z -> M unit) (l : list Z) :
  (forall i s, wp (body i)
                 (fun o _ lg => optimizer_steps lg =
                                match o with Ok _ => 1%nat | Raise _ => 0%nat end) s) ->
  forall s, wp (for_each l body)
              (fun o _ lg => (optimizer_steps lg <= length l)%nat /\
                             (o = Ok tt -> optimizer_steps lg = length l)) s.
Proof.
  intros Hbody. induction l as [|i l IH]; intros s; cbn [for_each].
  - apply wp_ret. split; [cbn; lia | reflexivity].
  - apply wp_bind. specialize (Hbody i s). unfold wp in *.
    destruct (out (body i s)).
    + specialize (IH (st (body i s))). destruct IH as [IH1 IH2].
      rewrite optimizer_steps_app, Hbody. cbn [length].
      split; [lia | intros Ho; rewrite (IH2 Ho); lia].
    + rewrite Hbody. cbn [length]. split; [lia | discriminate].
Qed.

Lemma training_loop_steps a m d ne pe s :
  wp (training_loop C a m d ne pe)
     (fun o _ l => (optimizer_steps l <= Z.to_nat (iterations a))%nat /\
                   (o = Ok tt -> optimizer_steps l = Z.to_nat (iterations a))) s.
Proof.
  unfold training_loop. rewrite <- (range_length (iterations a)).
  apply for_each_steps. intros i s'. apply train_step_steps.
Qed.

(** X4.  A run performs at most [iterations] optimizer steps (none when
    [iterations] is not positive), and a call that returns normally has
    performed exactly that many. *)
Theorem train_optimizer_steps (a : train_args) s :
  (optimizer_steps (log (train C a s)) <= Z.to_nat (iterations a))%nat /\
  (out (train C a s) = Ok tt ->
   optimizer_steps (log (train C a s)) = Z.to_nat (iterations a)).
Proof.
  change (wp (train C a)
            (fun o _ l =>
               (optimizer_steps l <= Z.to_nat (iterations a))%nat /\
               (o = Ok tt -> optimizer_steps l = Z.to_nat (iterations a))) s).
  train_run_with training_loop_steps.
  all: cbn [app];
       repeat match goal with H : _ /\ _ |- _ => destruct H end.
  all: repeat match goal with
         | |- context [optimizer_steps (?e :: ?l)] =>
             change (optimizer_steps (e :: l)) with (optimizer_steps l)
         end.
  all: rewrite ?optimizer_steps_app.
  all: repeat match goal with
         | |- context [optimizer_steps (?e :: ?l)] =>
             change (optimizer_steps (e :: l)) with (optimizer_steps l)
         end.
  all: change (optimizer_steps (@nil event)) with 0%nat.
  all: split; [lia|]; intros Hok; try discriminate Hok.
  all: match goal with H : Ok tt = Ok tt -> _ |- _ => rewrite (H eq_refl) end; lia.
Qed.

(** *** Arguments that only reach the experiment tracker *)

Lemma train_main_alpha_modules a x ms :
  train_main C (with_alpha_modules x ms a) = train_main C a.
Proof. reflexivity. Qed.

(** X5.  [alpha] and [modules] do not reach the network: line 88 builds it with
    [alpha=1] and without a module list.  Two calls that differ only in these
    two arguments end in the same outcome and state and produce the same log
    up to the dictionary stored in [wandb.config]; without experiment
    tracking, the very same log. *)
Theorem train_ignores_alpha_and_modules (a : train_args) (x : Scalar)
    (ms : list string) s :
  out (train C (with_alpha_modules x ms a) s) = out (train C a s) /\
  st (train C (with_alpha_modules x ms a) s) = st (train C a s) /\
  without_wandb_config (log (train C (with_alpha_modules x ms a) s)) =
    without_wandb_config (log (train C a s)) /\
  (enable_wandb a = false ->
   log (train C (with_alpha_modules x ms a) s) = log (train C a s)).
Proof.
  destruct (train_unfold (with_alpha_modules x ms a) s) as (Ho1 & Hs1 & Hl1).
  destruct (train_unfold a s) as (Ho2 & Hs2 & Hl2).
  rewrite Ho1, Ho2, Hs1, Hs2, Hl1, Hl2.
  rewrite (train_main_alpha_modules a x ms).
  unfold prologue_log.
  change (enable_wandb (with_alpha_modules x ms a)) with (enable_wandb a).
  generalize (train_main C a (set_frame args_frame s)).
  intros r.
  split; [reflexivity|]. split; [reflexivity|].
  destruct (enable_wandb a).
  - split; [reflexivity|]. intros H. discriminate H.
  - split; [reflexivity|]. intros _. reflexivity.
Qed.

(** *** Normal return *)

Lemma index_in_range {A : Type} (l : list A) (i : Z) :
  0 <= i < Z.of_nat (length l) -> exists x, Py.index l i = inr x.
Proof.
  intros H. unfold Py.index.
  destruct (Z.ltb_spec i 0) as [Hneg|_]; [lia|].
  destruct (Z.leb_spec 0 i) as [_|Hneg]; [|lia].
  destruct (Z.ltb_spec i (Z.of_nat (length l))) as [_|Hge]; [|lia].
  cbn [andb].
  destruct (nth_error l (Z.to_nat i)) as [x|] eqn:E; [eauto|].
  apply nth_error_None in E. lia.
Qed.

Lemma no_fine_index_error raw e :
  fine_index (Torch.randint 1 (DDIM_STEPS - 1) raw) = inl e -> False.
Proof.
  intros H. pose proof (draw_timesteps_to_range raw) as Hr.
  unfold draw_timesteps_to in Hr.
  destruct (fine_index_exact _ Hr) as [H1 _]. congruence.
Qed.

Lemma no_index_error m raw idx e :
  sampler_never_raises C ->
  fine_index (Torch.randint 1 (DDIM_STEPS - 1) raw) = inr idx ->
  Py.index (scheduler_timesteps C m (Some 1000)) idx = inl e -> False.
Proof.
  intros (_ & _ & Hlen) Hidx H.
  destruct (fine_index_drawn raw idx Hidx) as [_ Hrange].
  destruct (index_in_range (scheduler_timesteps C m (Some 1000)) idx) as [x Hx].
  - rewrite Hlen. lia.
  - congruence.
Qed.

Lemma no_diffusion_error m ad g p sc latents emb start total guidance e :
  sampler_never_raises C ->
  inl e = diffusion C m ad g p sc latents emb start total guidance -> False.
Proof. intros (H & _ & _) Heq. symmetry in Heq. exact (H _ _ _ _ _ _ _ _ _ _ _ Heq). Qed.

Lemma no_predict_error m ad g p sc timestep latents emb guidance e :
  sampler_never_raises C ->
  inl e = match predict_noise C m ad g p sc timestep latents emb guidance with
          | inl e' => inl e'
          | inr t => inr (to_cpu_float32 C t)
          end -> False.
Proof.
  intros (_ & H & _) Heq.
  destruct (predict_noise C m ad g p sc timestep latents emb guidance) eqn:E.
  - exact (H _ _ _ _ _ _ _ _ _ _ E).
  - discriminate Heq.
Qed.

(** When no sampler call raises and gradient mode is on, an iteration
    completes and binds the five locals of the loop, keeping every name already
    bound and the gradient mode. *)
Lemma train_step_completes a m d ne pe i s :
  sampler_never_raises C ->
  grad_enabled s = true ->
  wp (train_step C a m d ne pe i)
     (fun o s' _ => o = Ok tt /\ grad_enabled s' = true /\ frame s ⊆ frame s' /\
                    list_to_set loop_locals ⊆ frame s') s.
Proof.
  intros Hne Hgrad. unfold train_step. wp_run.
  all: try (exfalso; eapply no_diffusion_error; eassumption).
  all: try (exfalso; eapply no_predict_error; eassumption).
  all: try (exfalso; eapply no_fine_index_error; eassumption).
  all: try (exfalso; eapply no_index_error; eassumption).
  all: try congruence.
  all: split; [reflexivity|]. all: split; [exact Hgrad|].
  all: unfold loop_locals; cbn [list_to_set foldr]; split; set_solver.
Qed.

Lemma for_each_completes a m d ne pe (l : list Z) s :
  sampler_never_raises C ->
  grad_enabled s = true ->
  wp (for_each l (train_step C a m d ne pe))
     (fun o s' _ => o = Ok tt /\ grad_enabled s' = true /\ frame s ⊆ frame s') s.
Proof.
  intros Hne Hgrad.
  apply wp_for_each
    with (I := fun s' (_ : list event) => grad_enabled s' = true /\ frame s ⊆ frame s').
  - split; [exact Hgrad | reflexivity].
  - intros i s1 l1 [Hg Hsub].
    pose proof (train_step_completes a m d ne pe i s1 Hne Hg) as H.
    unfold wp in *. destruct H as (Ho & Hg' & Hs & _). rewrite Ho.
    split; [exact Hg' | etransitivity; eassumption].
  - intros s1 l1 [Hg Hsub]. split; [reflexivity|]. split; assumption.
Qed.

Lemma training_loop_completes a m d ne pe s :
  sampler_never_raises C ->
  grad_enabled s = true ->
  0 < iterations a ->
  wp (training_loop C a m d ne pe)
     (fun o s' _ => o = Ok tt /\ frame s ⊆ frame s' /\
                    list_to_set loop_locals ⊆ frame s') s.
Proof.
  intros Hne Hgrad Hpos. unfold training_loop.
  destruct (Py.range (iterations a)) as [|i l] eqn:E.
  - pose proof (range_length (iterations a)) as Hlen. rewrite E in Hlen.
    cbn [length] in Hlen. lia.
  - cbn [for_each]. apply wp_bind.
    pose proof (train_step_completes a m d ne pe i s Hne Hgrad) as H1.
    unfold wp in *. destruct H1 as (Ho & Hg & Hs & Hl). rewrite Ho.
    pose proof (for_each_completes a m d ne pe l
                  (st (train_step C a m d ne pe i s)) Hne Hg) as H2.
    unfold wp in H2. destruct H2 as (Ho2 & _ & Hs2).
    split; [exact Ho2|]. split; etransitivity; eassumption.
Qed.

(** Lines 199-223 from a frame in which the nine names are bound: the weights
    are saved, the names are deleted in order, and the call falls through to
    the final message. *)
Lemma save_and_cleanup_completes a d s :
  (forall n, In n cleanup_names -> n ∈ frame s) ->
  wp (save_and_cleanup C a d)
     (fun o s' l =>
        o = Ok tt /\
        l = [ EvPrint "Saving..."; EvMkdir (save_path a) true true;
              EvSaveWeights (path_join C (save_path a) (weight_file_name (prompt a)))
                d (params s) ] ++
            map EvDel cleanup_names ++ [EvEmptyCache; EvPrint "Done."] /\
        params s' = params s /\
        Forall (fun n => n ∉ frame s') cleanup_names) s.
Proof.
  intros Hin.
  assert (H1 := Hin "unet" ltac:(cbn; tauto)).
  assert (H2 := Hin "scheduler" ltac:(cbn; tauto)).
  assert (H3 := Hin "loss" ltac:(cbn; tauto)).
  assert (H4 := Hin "optimizer" ltac:(cbn; tauto)).
  assert (H5 := Hin "network" ltac:(cbn; tauto)).
  assert (H6 := Hin "negative_latents" ltac:(cbn; tauto)).
  assert (H7 := Hin "neutral_latents" ltac:(cbn; tauto)).
  assert (H8 := Hin "positive_latents" ltac:(cbn; tauto)).
  assert (H9 := Hin "latents" ltac:(cbn; tauto)).
  clear Hin.
  unfold save_and_cleanup. do 11 wp_step. cbn [del_all].
  do 9 (apply wp_bind, wp_del; fields;
        rewrite bool_decide_eq_true_2 by set_solver; cbv beta iota).
  wp_run.
  split; [reflexivity|]. split; [reflexivity|]. split; [reflexivity|].
  unfold cleanup_names. repeat (constructor; [set_solver|]). constructor.
Qed.

(** Symbolic execution of the setup, where the frame is known. *)
Ltac setup_step :=
  lazymatch goal with
  | |- wp (train_main _ _) _ _ => unfold train_main; cbv zeta
  | |- wp (embeddings _ _ _ _) _ _ => unfold embeddings
  | |- wp (del _) _ _ => decide_del
  | |- _ => wp_step
  end;
  cbv beta iota;
  fields.

Ltac find_in :=
  repeat first [ left; reflexivity | right | apply in_or_app; right ].

(** Membership of a name in a set of names that is known. *)
Ltac elem_of_known :=
  match goal with
  | |- ?P => apply (bool_decide_unpack P); vm_compute; exact I
  end.

(** X6.  With at least one iteration, a sampler that never raises and gradient
    mode on at the call, [train] returns normally, and its log ends with the
    saving phase: the announcement, the directory, the weight file with the
    final parameters, the deletion of the nine names in the order of the [del]
    statement, the cache release and the final message; the nine names are
    unbound at exit.  (Compare with a call without iterations, which always
    ends in the unbound-local error.) *)
Theorem train_returns_normally (a : train_args) s :
  sampler_never_raises C ->
  grad_enabled s = true ->
  0 < iterations a ->
  out (train C a s) = Ok tt /\
  (exists before,
     log (train C a s) =
     before ++
     [ EvPrint "Saving..."; EvMkdir (save_path a) true true;
       EvSaveWeights (path_join C (save_path a) (weight_file_name (prompt a)))
         (weight_dtype_of (precision a)) (params (st (train C a s))) ] ++
     map EvDel [ "unet"; "scheduler"; "loss"; "optimizer"; "network";
                 "negative_latents"; "neutral_latents"; "positive_latents";
                 "latents" ] ++
     [EvEmptyCache; EvPrint "Done."]) /\
  Forall (fun n => n ∉ frame (st (train C a s))) cleanup_names.
Proof.
  intros Hne Hgrad Hpos.
  change (wp (train C a)
            (fun o s' l =>
               o = Ok tt /\
               (exists before,
                  l = before ++
                      [ EvPrint "Saving..."; EvMkdir (save_path a) true true;
                        EvSaveWeights
                          (path_join C (save_path a) (weight_file_name (prompt a)))
                          (weight_dtype_of (precision a)) (params s') ] ++
                      map EvDel cleanup_names ++ [EvEmptyCache; EvPrint "Done."]) /\
               Forall (fun n => n ∉ frame s') cleanup_names) s).
  unfold train. repeat setup_step.
  all: (eapply wp_conseq;
        [apply training_loop_completes; [assumption | exact Hgrad | assumption]
        |intros o s2 l2 (Ho & Hsub & Hloc); subst o; cbv beta iota; fields]).
  all: (eapply wp_conseq;
        [apply save_and_cleanup_completes;
         intros n Hn; unfold cleanup_names in Hn; cbn [In] in Hn;
         repeat (destruct Hn as [<-|Hn]);
         first [ contradiction
               | eapply elem_of_weaken; [|exact Hsub]; elem_of_known
               | eapply elem_of_weaken; [|exact Hloc]; elem_of_known ]
        |intros o s3 l3 (Ho & Hl & Hp & Hf); subst o l3; cbv beta iota]).
  all: rewrite Hp.
  all: split; [reflexivity|].
  all: split; [|exact Hf].
  all: eexists; rewrite !app_assoc; do 3 f_equal; rewrite <- !app_assoc; reflexivity.
Qed.

(** *** Gradient mode off at the call *)

(** With gradient mode off the loss is not recorded: the iteration runs up to
    [loss.backward()], which raises; no optimizer step is taken and the
    parameters are untouched. *)
Lemma train_step_unrecorded a m d ne pe i s :
  sampler_never_raises C ->
  grad_enabled s = false ->
  wp (train_step C a m d ne pe i)
     (fun o s' l =>
        o = Raise (Py.RuntimeError
                     "element 0 of tensors does not require grad and does not have a grad_fn") /\
        optimizer_steps l = 0%nat /\ params s' = params s) s.
Proof.
  intros Hne Hgrad. unfold train_step. wp_run.
  all: try (exfalso; eapply no_diffusion_error; eassumption).
  all: try (exfalso; eapply no_predict_error; eassumption).
  all: try (exfalso; eapply no_fine_index_error; eassumption).
  all: try (exfalso; eapply no_index_error; eassumption).
  all: try congruence.
  all: split; [reflexivity|].
  all: destruct (enable_wandb a); split; reflexivity.
Qed.

Lemma training_loop_unrecorded a m d ne pe s :
  sampler_never_raises C ->
  grad_enabled s = false ->
  0 < iterations a ->
  wp (training_loop C a m d ne pe)
     (fun o s' l =>
        o = Raise (Py.RuntimeError
                     "element 0 of tensors does not require grad and does not have a grad_fn") /\
        Forall loop_event l /\ optimizer_steps l = 0%nat /\ params s' = params s) s.
Proof.
  intros Hne Hgrad Hpos.
  assert (H : wp (training_loop C a m d ne pe)
                (fun o s' l =>
                   o = Raise (Py.RuntimeError
                                "element 0 of tensors does not require grad and does not have a grad_fn") /\
                   optimizer_steps l = 0%nat /\ params s' = params s) s).
  { unfold training_loop.
    destruct (Py.range (iterations a)) as [|i l] eqn:E.
    - pose proof (range_length (iterations a)) as Hlen. rewrite E in Hlen.
      cbn [length] in Hlen. lia.
    - cbn [for_each]. apply wp_bind.
      eapply wp_conseq; [apply train_step_unrecorded; assumption|].
      intros o s' l' (-> & H). exact (conj eq_refl H). }
  unfold wp in *. destruct H as (H1 & H2 & H3).
  split; [exact H1|]. split; [apply training_loop_events|]. split; assumption.
Qed.

(** X13.  Called with gradient mode off (inside [torch.no_grad()], say), with at
    least one iteration and a sampler that never raises, [train] fails in its
    first iteration: [loss.backward()] raises since the loss was not recorded.
    No optimizer step has been taken, the parameters of the network are those
    of its construction, and nothing is written to the file system. *)
Theorem train_gradient_mode_off (a : train_args) s :
  sampler_never_raises C ->
  grad_enabled s = false ->
  0 < iterations a ->
  out (train C a s) =
    Raise (Py.RuntimeError
             "element 0 of tensors does not require grad and does not have a grad_fn") /\
  optimizer_steps (log (train C a s)) = 0%nat /\
  file_events (log (train C a s)) = [] /\
  params (st (train C a s)) = initial_params C a.
Proof.
  intros Hne Hgrad Hpos.
  change (wp (train C a)
            (fun o s' l =>
               o = Raise (Py.RuntimeError
                            "element 0 of tensors does not require grad and does not have a grad_fn") /\
               optimizer_steps l = 0%nat /\
               file_events l = [] /\
               params s' = initial_params C a) s).
  unfold train. repeat setup_step.
  all: (eapply wp_conseq;
        [apply training_loop_unrecorded; [assumption | exact Hgrad | assumption]
        |intros o s2 l2 (Ho & Hloop & Hsteps & Hp); subst o; cbv beta iota; fields]).
  all: split; [reflexivity|].
  all: cbn [app].
  all: split; [|split; [|exact Hp]].
  all: try (unfold file_events; cbn [List.filter is_file_event];
            change (List.filter is_file_event l2) with (file_events l2);
            apply loop_event_no_file; exact Hloop).
  all: repeat match goal with
         | |- context [optimizer_steps (?e :: ?l)] =>
             change (optimizer_steps (e :: l)) with (optimizer_steps l)
         end.
  all: exact Hsteps.
Qed.

(** *** Experiment tracking switched off *)

Lemma train_step_without_wandb a m d ne pe i s :
  wp (train_step C a m d ne pe i)
     (fun _ _ l => enable_wandb a = false ->
                   Forall (fun e => is_wandb_event e = false) l) s.
Proof.
  unfold train_step. wp_run.
  all: intros Hw; rewrite Hw; cbn [app].
  all: forall_log.
Qed.

Lemma training_loop_without_wandb a m d ne pe s :
  wp (training_loop C a m d ne pe)
     (fun _ _ l => enable_wandb a = false ->
                   Forall (fun e => is_wandb_event e = false) l) s.
Proof.
  unfold training_loop.
  apply wp_for_each
    with (I := fun (_ : state) l => enable_wandb a = false ->
                                    Forall (fun e => is_wandb_event e = false) l).
  - intros _. constructor.
  - intros i s1 l1 H1.
    pose proof (train_step_without_wandb a m d ne pe i s1) as H2.
    unfold wp in *.
    destruct (out (train_step C a m d ne pe i s1));
      intros Hw; apply Forall_app; split; auto.
  - intros s1 l1 H. exact H.
Qed.

(** X7.  With [enable_wandb] false a run never talks to the experiment tracker:
    no [wandb.init], no configuration, no [wandb.log]. *)
Theorem train_without_wandb (a : train_args) s :
  enable_wandb a = false ->
  Forall (fun e => is_wandb_event e = false) (log (train C a s)).
Proof.
  change (wp (train C a)
            (fun _ _ l => enable_wandb a = false ->
                          Forall (fun e => is_wandb_event e = false) l) s).
  train_run_with training_loop_without_wandb.
  all: intros Hw; try congruence; cbn [app].
  all: repeat match goal with
         | H : enable_wandb _ = false -> _, E : enable_wandb _ = false |- _ =>
             specialize (H E)
         end.
  all: forall_log.
Qed.

(** *** One precision *)

Lemma loop_event_precision d (l : list event) :
  Forall loop_event l -> Forall (precision_ok d) l.
Proof.
  intros H. eapply Forall_impl; [exact H|].
  intros e He. destruct e; try exact I; discriminate He.
Qed.

(** X8.  In every run the text encoder and the denoiser are moved to the device
    ["cuda"] in the working precision, the network is built in it, and the
    weights are saved in it. *)
Theorem train_one_precision (a : train_args) s :
  Forall (precision_ok (weight_dtype_of (precision a))) (log (train C a s)).
Proof.
  change (wp (train C a)
            (fun _ _ l => Forall (precision_ok (weight_dtype_of (precision a))) l) s).
  train_run.
  all: cbn [app];
       try match goal with
         | H : Forall loop_event _ |- _ =>
             apply (loop_event_precision (weight_dtype_of (precision a))) in H
         end.
  all: forall_log.
Qed.

(** *** A negative number of iterations *)

Lemma range_nonpositive (n : Z) : n <= 0 -> Py.range n = [].
Proof.
  intros H. unfold Py.range. replace (Z.to_nat n) with 0%nat by lia. reflexivity.
Qed.

Ltac nonpositive_step H :=
  lazymatch goal with
  | |- wp (train_main _ _) _ _ => unfold train_main; cbv zeta
  | |- wp (embeddings _ _ _ _) _ _ => unfold embeddings
  | |- wp (save_and_cleanup _ _ _) _ _ => unfold save_and_cleanup
  | |- wp (del_all _) _ _ => cbn [del_all]
  | |- wp (del _) _ _ => decide_del
  | |- wp (training_loop _ _ _ _ _ _) _ _ =>
      unfold training_loop; rewrite (range_nonpositive _ H); cbn [for_each]
  | |- _ => wp_step
  end;
  cbv beta iota;
  fields.

(** X9.  A negative [iterations] is not rejected: [range] is empty, so the call
    behaves as with 0 iterations; it writes the untrained weights and ends in
    the unbound-local error at [loss]. *)
Theorem train_nonpositive_iterations (a : train_args) s :
  iterations a <= 0 ->
  out (train C a s) = Raise (Py.UnboundLocalError "loss") /\
  log (train C a s) = run_without_iterations C a /\
  params (st (train C a s)) = initial_params C a.
Proof.
  intros H.
  change (wp (train C a)
            (fun o s' l => o = Raise (Py.UnboundLocalError "loss") /\
                           l = run_without_iterations C a /\
                           params s' = initial_params C a) s).
  unfold train. repeat nonpositive_step H.
  all: unfold run_without_iterations, prologue_log;
       match goal with E : enable_wandb _ = _ |- _ => rewrite E end.
  all: split; [reflexivity|]; split; reflexivity.
Qed.

End Proofs.

(** C6.  The precision switch is a total function: "float16" gives half
    precision, "bfloat16" gives bfloat16, and every other string, "float32"
    and "int8" among them, gives float32. *)
Theorem C6_precision_resolution (precision : string) :
  weight_dtype_of "float16" = Torch.float16 /\
  weight_dtype_of "bfloat16" = Torch.bfloat16 /\
  weight_dtype_of "float32" = Torch.float32 /\
  weight_dtype_of "int8" = Torch.float32 /\
  (precision <> "float16" -> precision <> "bfloat16" ->
   weight_dtype_of precision = Torch.float32).
Proof.
  repeat split. intros H1 H2. unfold weight_dtype_of.
  destruct (String.eqb_spec precision "float16"); [contradiction|].
  destruct (String.eqb_spec precision "bfloat16"); [contradiction|].
  reflexivity.
Qed.

(** ** The name of the weight file *)

Lemma concept_name_idempotent (p : string) :
  concept_name (concept_name p) = concept_name p.
Proof.
  rewrite !concept_name_map. induction p as [|c p IH]; [reflexivity|].
  cbn [Py.map_char]. rewrite IH.
  destruct (Ascii.eqb_spec " " c) as [|Hne]; [reflexivity|].
  destruct (Ascii.eqb_spec " " c); [contradiction | reflexivity].
Qed.

Lemma suffix_no_space (n : nat) :
  String.get n "_last.safetensors" <> Some " "%char.
Proof.
  do 17 (destruct n as [|n]; [cbn; discriminate|]). cbn. discriminate.
Qed.

(** X10.  The weight file name never contains a space, and a prompt and its
    underscored form get the same file: training "van gogh" after "van_gogh"
    into the same directory overwrites the first weights. *)
Theorem weight_file_name_spaces (p : string) :
  (forall n, String.get n (weight_file_name p) <> Some " "%char) /\
  weight_file_name (concept_name p) = weight_file_name p.
Proof.
  split.
  - unfold weight_file_name. rewrite concept_name_map.
    induction p as [|c p IH]; intros n.
    + apply suffix_no_space.
    + cbn [Py.map_char String.append]. destruct n as [|n]; cbn [String.get].
      * destruct (Ascii.eqb_spec " " c) as [|Hne]; [discriminate|].
        intros H. injection H as H. congruence.
      * apply IH.
  - unfold weight_file_name. rewrite concept_name_idempotent. reflexivity.
Qed.

(** ** The debugging helpers *)

Lemma firstn_app_long {A : Type} (n : nat) (l extra : list A) :
  (n <= length l)%nat -> firstn n (l ++ extra) = firstn n l.
Proof.
  intros H. rewrite firstn_app. replace (n - length l)%nat with 0%nat by lia.
  cbn [firstn]. apply app_nil_r.
Qed.

Lemma flat_map_length_le {A B : Type} (f : A -> list B) (k : nat) (l : list A) :
  (forall x, length (f x) <= k)%nat ->
  (length (flat_map f l) <= k * length l)%nat.
Proof.
  intros H. induction l as [|x l IH]; cbn [flat_map length]; [lia|].
  rewrite length_app. specialize (H x). lia.
Qed.

Lemma firstn_In {A : Type} (n : nat) (l : list A) (x : A) :
  In x (firstn n l) -> In x l.
Proof.
  revert n. induction l as [|y l IH]; intros [|n]; cbn [firstn In]; try tauto.
  intros [H|H]; [left; exact H | right; exact (IH n H)].
Qed.

Lemma flat_map_nil {A B : Type} (f : A -> list B) (l : list A) :
  (forall x, In x l -> f x = []) -> flat_map f l = [].
Proof.
  induction l as [|x l IH]; intros H; cbn [flat_map]; [reflexivity|].
  rewrite (H x) by (left; reflexivity). apply IH. intros y Hy. apply H. right. exact Hy.
Qed.

Lemma flat_map_nil_inv {A B : Type} (f : A -> list B) (l : list A) (x : A) :
  flat_map f l = [] -> In x l -> f x = [].
Proof.
  induction l as [|y l IH]; cbn [flat_map In]; [tauto|].
  intros H [<-|Hx]; apply app_eq_nil in H; destruct H as [H1 H2]; auto.
Qed.

(** Induction on a module tree. *)
Lemma module_induction (P : Debug.module -> Prop) :
  (forall own flag subs,
     Forall (fun c => P (snd c)) subs -> P (Debug.NNModule own flag subs)) ->
  forall m, P m.
Proof.
  intros H. fix IH 1. intros [own flag subs]. apply H.
  induction subs as [|c subs IHsubs]; constructor; [apply IH | exact IHsubs].
Qed.

(** Which modules [named_modules] yields does not depend on the prefix. *)
Lemma named_modules_prefix (m : Debug.module) :
  forall p q e, In e (Debug.named_modules_from p m) ->
                exists n, In (n, snd e) (Debug.named_modules_from q m).
Proof.
  induction m as [own flag subs IH] using module_induction.
  intros p q e He. cbn [Debug.named_modules_from] in *.
  destruct He as [<-|He].
  - exists q. left. reflexivity.
  - apply in_flat_map in He. destruct He as (c & Hc & He).
    rewrite List.Forall_forall in IH.
    destruct (IH c Hc _ (Debug.qualify q (fst c)) _ He) as [n Hn].
    exists n. right. apply in_flat_map. exists c. split; assumption.
Qed.

(** The modules below a module of the model are modules of the model. *)
Lemma named_modules_below (m : Debug.module) :
  forall p e, In e (Debug.named_modules_from p m) ->
  forall q e', In e' (Debug.named_modules_from q (snd e)) ->
               exists n, In (n, snd e') (Debug.named_modules_from p m).
Proof.
  induction m as [own flag subs IH] using module_induction.
  intros p e He q e' He'.
  change (Debug.named_modules_from p (Debug.NNModule own flag subs))
    with ((p, Debug.NNModule own flag subs)
            :: flat_map (fun c => Debug.named_modules_from
                                    (Debug.qualify p (fst c)) (snd c)) subs) in *.
  destruct He as [<-|He].
  - cbn [snd] in He'. exact (named_modules_prefix _ q p e' He').
  - apply in_flat_map in He. destruct He as (c & Hc & He).
    rewrite List.Forall_forall in IH.
    destruct (IH c Hc _ _ He _ _ He') as [n Hn].
    exists n. right. apply in_flat_map. exists c. split; assumption.
Qed.

(** [parameters()] recurses: a model without parameters has no module with
    parameters. *)
Lemma no_parameters_below (model : Debug.module) (e : Debug.module_info) :
  Debug.named_parameters model = [] ->
  In e (Debug.named_modules model) ->
  Debug.named_parameters (snd e) = [].
Proof.
  intros Hnone He. unfold Debug.named_parameters at 1.
  apply flat_map_nil. intros e' He'.
  destruct (named_modules_below model "" e He "" e' He') as [n Hn].
  pose proof (flat_map_nil_inv _ _ _ Hnone Hn) as H. cbn [fst snd] in H.
  destruct (Debug.own_parameters (snd e')); [reflexivity | discriminate H].
Qed.

(** X11.  [check_requires_grad] prints at most three lines for each of the first
    five modules, never more than 15.  The model itself comes first and its
    parameters are those of the whole tree: a model without any parameter
    prints nothing, and any other model prints ["Module: "] (the empty name of
    the root) and then the first two parameters of the whole model under their
    qualified names, whichever modules they are registered on. *)
Theorem check_requires_grad_bounded (model : Debug.module) :
  (length (Debug.check_requires_grad (Debug.named_modules model)) <= 15)%nat /\
  (Debug.named_parameters model = [] ->
   Debug.check_requires_grad (Debug.named_modules model) = []) /\
  (Debug.named_parameters model <> [] ->
   exists rest,
     Debug.check_requires_grad (Debug.named_modules model) =
     "Module: "
       :: map Debug.parameter_line (firstn 2 (Debug.named_parameters model)) ++ rest).
Proof.
  split; [|split].
  - unfold Debug.check_requires_grad.
    etransitivity; [apply (flat_map_length_le _ 3)|].
    + intros e. destruct (0 <? length (Debug.parameters (snd e)))%nat; cbn [length].
      * rewrite length_map, length_firstn. lia.
      * lia.
    + rewrite length_firstn. lia.
  - intros Hnone. unfold Debug.check_requires_grad.
    apply flat_map_nil. intros e He. apply firstn_In in He.
    unfold Debug.parameters. rewrite (no_parameters_below model e Hnone He).
    reflexivity.
  - intros Hsome. unfold Debug.check_requires_grad, Debug.named_modules.
    destruct model as [own flag subs]. cbn [Debug.named_modules_from firstn flat_map snd].
    set (model := Debug.NNModule own flag subs) in *.
    unfold Debug.parameters at 1.
    destruct (Debug.named_parameters model) as [|np nps] eqn:E; [congruence|].
    cbn [map length Nat.ltb Nat.leb]. eexists. reflexivity.
Qed.

(** X12.  [check_training_mode] prints one line for each of the first five modules:
    [min 5 n] lines for a model with [n] modules, whatever comes after the
    fifth. *)
Theorem check_training_mode_lines (ms extra : list Debug.module_info) :
  length (Debug.check_training_mode ms) = Nat.min 5 (length ms) /\
  ((5 <= length ms)%nat ->
   Debug.check_training_mode (ms ++ extra) = Debug.check_training_mode ms).
Proof.
  split.
  - unfold Debug.check_training_mode. rewrite length_map, length_firstn. reflexivity.
  - intros H. unfold Debug.check_training_mode.
    rewrite firstn_app_long by exact H. reflexivity.
Qed.

(** ** The claims on concrete runs *)

Lemma C1_witness :
  out (train_step (Toy.world false) (Toy.args 1 "" false) tt Torch.bfloat16
         [0%Q] [8%Q] 0 Toy.start) = Ok tt /\
  exists p n q,
    let l := log (train_step (Toy.world false) (Toy.args 1 "" false) tt
                    Torch.bfloat16 [0%Q] [8%Q] 0 Toy.start) in
    let target := guidance_target (Toy.world false) 1%Q p n in
    In (EvPredictNoise site_positive DISABLED false [8%Q] 1 (inr p)) l /\
    In (EvPredictNoise site_neutral DISABLED false [0%Q] 1 (inr n)) l /\
    In (EvPredictNoise site_negative ENABLED true [8%Q] 1 (inr q)) l /\
    In (EvCriteria q target (MSELoss (Toy.world false) q target)) l /\
    In (EvBackward (MSELoss (Toy.world false) q target)) l.
Proof.
  split; [vm_compute; reflexivity|].
  apply (proj1 (C1_loss_is_mse_against_guidance_target (Toy.world false)
                  (Toy.args 1 "" false))
           tt Torch.bfloat16 [0%Q] [8%Q] 0 Toy.start).
  vm_compute. reflexivity.
Defined.

Lemma C4_witness :
  1 <= 7 <= DDIM_STEPS - 2 /\
  fine_index 7 = inr (7 * 1000 / DDIM_STEPS) /\
  fine_index_rounded 7 = fine_index 7 /\
  (7 * 1000) mod DDIM_STEPS = 0 /\
  0 <= 7 * 1000 / DDIM_STEPS < 1000.
Proof.
  assert (H : 1 <= 7 <= DDIM_STEPS - 2) by (unfold DDIM_STEPS; lia).
  split; [exact H|].
  destruct (C4_fine_index_exact (Toy.world false) 7 H) as (H1 & H2 & H3 & H4 & _).
  split; [exact H1|]. split; [exact H2|]. split; [exact H3 | exact H4].
Defined.


Lemma C6_witness :
  "int8" <> "float16" /\ "int8" <> "bfloat16" /\
  weight_dtype_of "int8" = Torch.float32.
Proof.
  assert (H1 : "int8" <> "float16") by discriminate.
  assert (H2 : "int8" <> "bfloat16") by discriminate.
  split; [exact H1|]. split; [exact H2|].
  destruct (C6_precision_resolution "int8") as (_ & _ & _ & _ & H).
  exact (H H1 H2).
Defined.

Lemma C7_witness :
  In (EvPrint "Saving...")
     (log (train (Toy.world false) (Toy.args 1 "" false) Toy.start)) /\
  file_events (log (train (Toy.world false) (Toy.args 1 "" false) Toy.start)) =
    [ EvMkdir "./output" true true;
      EvSaveWeights "./output/van_gogh_last.safetensors" Torch.bfloat16
        (params (st (train (Toy.world false) (Toy.args 1 "" false) Toy.start))) ].
Proof.
  assert (H : In (EvPrint "Saving...")
                (log (train (Toy.world false) (Toy.args 1 "" false) Toy.start))).
  { vm_compute. repeat (first [left; reflexivity | right]). }
  split; [exact H|].
  exact (proj1 (C7_single_weight_file (Toy.world false) (Toy.args 1 "" false)
                  Toy.start H)).
Defined.

Lemma C8_witness :
  iterations (Toy.args 0 "" false) = 0 /\
  List.filter is_training_event
    (log (train (Toy.world false) (Toy.args 0 "" false) Toy.start)) = [] /\
  params (st (train (Toy.world false) (Toy.args 0 "" false) Toy.start)) = 0%Q.
Proof.
  split; [reflexivity|].
  destruct (C8_zero_iterations_saves_initial_weights (Toy.world false)
              (Toy.args 0 "" false) Toy.start eq_refl) as (H1 & H2 & _).
  split; [exact H1 | exact H2].
Defined.

Lemma C9_witness :
  iterations (Toy.args 0 "" true) = 0 /\
  out (train (Toy.world false) (Toy.args 0 "" true) Toy.start) =
    Raise (Py.UnboundLocalError "loss").
Proof.
  split; [reflexivity|].
  exact (proj1 (C9_zero_iterations_raises_unbound_local (Toy.world false)
                  (Toy.args 0 "" true) Toy.start eq_refl)).
Defined.

Lemma C10_witness :
  enable_wandb (Toy.args 2 "" false) = false /\
  log (train (Toy.world false)
         (with_neutral_prompt "a painting" (Toy.args 2 "" false)) Toy.start) =
  log (train (Toy.world false)
         (with_neutral_prompt "a photo" (Toy.args 2 "" false)) Toy.start).
Proof.
  split; [reflexivity|].
  destruct (C10_neutral_prompt_only_reaches_wandb_config (Toy.world false)
              (Toy.args 2 "" false) "a painting" "a photo" Toy.start)
    as (_ & _ & _ & _ & _ & H).
  exact (H eq_refl).
Defined.

(** With experiment tracking on, the neutral prompt is read: it reaches the
    dictionary stored in [wandb.config], so the two logs differ. *)
Lemma C10_counterexample :
  log (train (Toy.world false) (Toy.args 1 "a painting" true) Toy.start) <>
  log (train (Toy.world false) (Toy.args 1 "" true) Toy.start).
Proof. vm_compute. intros H. discriminate H. Qed.

(** A neutral prompt is supplied, and the neutral embedding is still asked
    for the empty string. *)
Lemma neutral_prompt_supplied_but_unused :
  embedding_requests
    (log (train (Toy.world false) (Toy.args 1 "a painting" false) Toy.start)) =
  [(false, [""], 1); (false, ["van gogh"], 1)].
Proof. vm_compute. reflexivity. Qed.

(** A sampler that raises inside the second scope: the run stops there, and
    the adapter is DISABLED again. *)
Lemma failing_sampler_leaves_adapter_disabled :
  out (train (Toy.world true) (Toy.args 2 "" false) Toy.start) =
    Raise (Py.RuntimeError "CUDA out of memory") /\
  adapter (st (train (Toy.world true) (Toy.args 2 "" false) Toy.start)) = DISABLED.
Proof. vm_compute. split; reflexivity. Qed.

(** ** The further properties on concrete runs *)

Lemma toy_sampler_never_raises : sampler_never_raises (Toy.world false).
Proof.
  split; [|split].
  - intros. cbn. discriminate.
  - intros m ad. intros. destruct ad; cbn; discriminate.
  - intros m. vm_compute. reflexivity.
Qed.

Lemma train_optimizer_steps_witness :
  out (train (Toy.world false) (Toy.args 2 "" false) Toy.start) = Ok tt /\
  optimizer_steps (log (train (Toy.world false) (Toy.args 2 "" false) Toy.start)) =
    2%nat.
Proof.
  assert (H : out (train (Toy.world false) (Toy.args 2 "" false) Toy.start) = Ok tt)
    by (vm_compute; reflexivity).
  split; [exact H|].
  exact (proj2 (train_optimizer_steps (Toy.world false) (Toy.args 2 "" false)
                  Toy.start) H).
Defined.

Lemma train_ignores_alpha_and_modules_witness :
  enable_wandb (Toy.args 1 "" false) = false /\
  log (train (Toy.world false)
         (with_alpha_modules 16%Q ["Linear"] (Toy.args 1 "" false)) Toy.start) =
  log (train (Toy.world false) (Toy.args 1 "" false) Toy.start).
Proof.
  split; [reflexivity|].
  destruct (train_ignores_alpha_and_modules (Toy.world false)
              (Toy.args 1 "" false) 16%Q ["Linear"] Toy.start) as (_ & _ & _ & H).
  exact (H eq_refl).
Defined.

Lemma train_returns_normally_witness :
  sampler_never_raises (Toy.world false) /\
  grad_enabled Toy.start = true /\
  0 < iterations (Toy.args 2 "" false) /\
  out (train (Toy.world false) (Toy.args 2 "" false) Toy.start) = Ok tt /\
  Forall (fun n => n ∉ frame (st (train (Toy.world false) (Toy.args 2 "" false)
                                     Toy.start)))
         cleanup_names.
Proof.
  split; [exact toy_sampler_never_raises|]. split; [reflexivity|].
  split; [reflexivity|].
  destruct (train_returns_normally (Toy.world false) (Toy.args 2 "" false)
              Toy.start toy_sampler_never_raises eq_refl eq_refl) as (H1 & _ & H2).
  split; [exact H1 | exact H2].
Defined.

Lemma train_gradient_mode_off_witness :
  sampler_never_raises (Toy.world false) /\
  grad_enabled (set_grad_enabled false Toy.start) = false /\
  0 < iterations (Toy.args 2 "" false) /\
  out (train (Toy.world false) (Toy.args 2 "" false)
         (set_grad_enabled false Toy.start)) =
    Raise (Py.RuntimeError
             "element 0 of tensors does not require grad and does not have a grad_fn") /\
  optimizer_steps (log (train (Toy.world false) (Toy.args 2 "" false)
                          (set_grad_enabled false Toy.start))) = 0%nat.
Proof.
  split; [exact toy_sampler_never_raises|]. split; [reflexivity|].
  split; [reflexivity|].
  destruct (train_gradient_mode_off (Toy.world false) (Toy.args 2 "" false)
              (set_grad_enabled false Toy.start) toy_sampler_never_raises
              eq_refl eq_refl) as (H1 & H2 & _).
  split; [exact H1 | exact H2].
Defined.

Lemma train_without_wandb_witness :
  enable_wandb (Toy.args 1 "" false) = false /\
  Forall (fun e => is_wandb_event e = false)
         (log (train (Toy.world false) (Toy.args 1 "" false) Toy.start)).
Proof.
  split; [reflexivity|].
  exact (train_without_wandb (Toy.world false) (Toy.args 1 "" false)
           Toy.start eq_refl).
Defined.

Lemma train_nonpositive_iterations_witness :
  iterations (Toy.args (-3) "" false) <= 0 /\
  out (train (Toy.world false) (Toy.args (-3) "" false) Toy.start) =
    Raise (Py.UnboundLocalError "loss").
Proof.
  assert (H : iterations (Toy.args (-3) "" false) <= 0) by (cbn; lia).
  split; [exact H|].
  exact (proj1 (train_nonpositive_iterations (Toy.world false)
                  (Toy.args (-3) "" false) Toy.start H)).
Defined.

Lemma check_requires_grad_bounded_witness :
  Debug.named_parameters six_model <> [] /\
  exists rest,
    Debug.check_requires_grad six_modules =
    "Module: "
      :: map Debug.parameter_line (firstn 2 (Debug.named_parameters six_model)) ++ rest.
Proof.
  assert (H : Debug.named_parameters six_model <> []) by (vm_compute; discriminate).
  split; [exact H|].
  exact (proj2 (proj2 (check_requires_grad_bounded six_model)) H).
Defined.

Lemma check_training_mode_lines_witness :
  (5 <= length six_modules)%nat /\
  Debug.check_training_mode (six_modules ++ six_modules) =
  Debug.check_training_mode six_modules.
Proof.
  assert (H : (5 <= length six_modules)%nat) by (cbn; lia).
  split; [exact H|].
  exact (proj2 (check_training_mode_lines six_modules six_modules) H).
Defined.

(** What the first helper prints for the six modules. *)
Lemma check_requires_grad_six_modules :
  Debug.check_requires_grad six_modules =
  [ "Module: ";
    "    Parameter: lora_down.weight, Requires Grad: True";
    "    Parameter: lora_up.weight, Requires Grad: True";
    "Module: a"; "    Parameter: w, Requires Grad: True";
    "Module: b"; "    Parameter: w, Requires Grad: False";
    "Module: c"; "    Parameter: w, Requires Grad: True" ].
Proof. vm_compute. reflexivity. Qed.

(** A module after the fifth is seen through the parameters of the root: four
    activations print nothing; with a linear layer appended as sixth module
    the root has parameters, and three lines are printed. *)
Lemma check_requires_grad_sees_later_modules :
  firstn 5 (map fst (Debug.named_modules four_activations)) =
  firstn 5 (map fst (Debug.named_modules four_activations_and_linear)) /\
  Debug.check_requires_grad (Debug.named_modules four_activations) = [] /\
  Debug.check_requires_grad (Debug.named_modules four_activations_and_linear) =
  [ "Module: ";
    "    Parameter: 4.weight, Requires Grad: True";
    "    Parameter: 4.bias, Requires Grad: True" ].
Proof. split; [|split]; vm_compute; reflexivity. Qed.
